(** * Sus Scanner API (api/main.py): a shallow embedding and its properties

    The development follows the source file top to bottom:
    - [PyStr]: the string operations the program uses ([str.strip],
      [str.split(",")], [str.startswith]);
    - [Cors]: the computation of [allow_origins] from [CORS_ORIGINS];
    - [Py]: the Python values, exceptions and duck-typed observations
      ([isinstance], [hasattr], [getattr], [vars], calls, [str]) that the
      handler performs on what the external scanner hands back;
    - [Gateway]: the process-wide resolution state, [_import_first],
      [_load_scanner_once], [_to_json] and the [/scan] handler, written in a
      small state/exception/trace monad.

    Python strings are modelled as Rocq [string]s read as sequences of code
    points below 256. *)

From Stdlib Require Import ZArith Lia Bool List Ascii String.
From Stdlib Require Import DecimalString.
Import ListNotations.
Open Scope string_scope.

(* ------------------------------------------------------------------------- *)
(** ** String operations *)

Module PyStr.

(** [str.isspace] on one code point (restricted to code points below 256):
    TAB, LF, VT, FF, CR, FS, GS, RS, US, SPACE, NEL and NBSP. *)
Definition isspace (c : ascii) : bool :=
  let n := nat_of_ascii c in
  (((9 <=? n) && (n <=? 13)) || ((28 <=? n) && (n <=? 32))
   || (n =? 133) || (n =? 160))%nat.

Definition is_empty (s : string) : bool :=
  match s with EmptyString => true | String _ _ => false end.

(** [s.lstrip()] *)
Fixpoint lstrip (s : string) : string :=
  match s with
  | EmptyString => EmptyString
  | String c s' => if isspace c then lstrip s' else s
  end.

(** [s.rstrip()] *)
Fixpoint rstrip (s : string) : string :=
  match s with
  | EmptyString => EmptyString
  | String c s' =>
      let r := rstrip s' in
      if isspace c && is_empty r then EmptyString else String c r
  end.

(** [s.strip()] *)
Definition strip (s : string) : string := rstrip (lstrip s).

(** [s.split(sep)] for a one-character separator: always at least one piece,
    empty pieces are kept. *)
Fixpoint split (sep : ascii) (s : string) : list string :=
  match s with
  | EmptyString => [EmptyString]
  | String c s' =>
      if Ascii.eqb c sep then EmptyString :: split sep s'
      else match split sep s' with
           | piece :: rest => String c piece :: rest
           | [] => [String c EmptyString]
           end
  end.

(** [sep.join(pieces)] for a one-character separator. *)
Fixpoint join (sep : ascii) (pieces : list string) : string :=
  match pieces with
  | [] => EmptyString
  | [p] => p
  | p :: rest => p ++ String sep (join sep rest)
  end.

(** [s.startswith(p)] *)
Definition startswith (s p : string) : bool := String.prefix p s.

(** Every character of [s] satisfies [p]. *)
Fixpoint all_chars (p : ascii -> bool) (s : string) : bool :=
  match s with
  | EmptyString => true
  | String c s' => p c && all_chars p s'
  end.

(** The first character of [s] is whitespace. *)
Definition starts_with_space (s : string) : bool :=
  match s with
  | EmptyString => false
  | String c _ => isspace c
  end.

(** The last character of [s] is whitespace. *)
Fixpoint ends_with_space (s : string) : bool :=
  match s with
  | EmptyString => false
  | String c EmptyString => isspace c
  | String _ s' => ends_with_space s'
  end.

(** What trimming means, said without [strip]: [core] is [text] with a run
    of whitespace taken off each end, and has no whitespace left at either
    end. *)
Definition trimmed_from (text core : string) : Prop :=
  exists left_pad right_pad,
    all_chars isspace left_pad = true /\
    all_chars isspace right_pad = true /\
    text = left_pad ++ core ++ right_pad /\
    starts_with_space core = false /\
    ends_with_space core = false.

(** [x or d] on strings: the empty string is the only falsy one. *)
Definition or_str (x d : string) : string := if is_empty x then d else x.

(** Substring test, [needle in hay]. *)
Fixpoint contains (needle hay : string) : bool :=
  String.prefix needle hay ||
  match hay with
  | EmptyString => false
  | String _ hay' => contains needle hay'
  end.

End PyStr.

(* ------------------------------------------------------------------------- *)
(** ** CORS configuration (main.py, lines 9-15) *)

Module Cors.
Import PyStr.

(** The process environment as far as this block reads it: the value of
    [CORS_ORIGINS], [None] when the variable is unset. *)
Definition Env := option string.

(** [os.getenv("CORS_ORIGINS", "")] *)
Definition origins_env (env : Env) : string :=
  match env with Some v => v | None => "" end.

Definition DEFAULT_ORIGINS : list string :=
  [ "https://chessdev-hub.github.io";
    "https://chessdev-hub.github.io/SusScanner1.50";
    "http://localhost:5173"; "http://127.0.0.1:5173" ].

(** [[o.strip() for o in origins_env.split(",") if o.strip()]] *)
Definition configured_origins (env : Env) : list string :=
  map strip
      (filter (fun o => negb (is_empty (strip o)))
              (split "," (origins_env env))).

(** [configured or DEFAULT_ORIGINS]: an empty list is falsy. *)
Definition allow_origins (env : Env) : list string :=
  match configured_origins env with
  | [] => DEFAULT_ORIGINS
  | l => l
  end.

(** The spec's wording of the fallback condition: the variable is unset, or
    its value holds nothing but whitespace and commas. *)
Definition blank_setting (env : Env) : bool :=
  match env with
  | None => true
  | Some v => all_chars (fun c => isspace c || Ascii.eqb c ",") v
  end.

End Cors.

(* ------------------------------------------------------------------------- *)
(** ** Route prefix (main.py, line 18) *)

Module Config.
Import PyStr.

(** [API_PREFIX = os.getenv("API_PREFIX", "").strip()], as a function of the
    value of the [API_PREFIX] variable ([None] when unset). *)
Definition API_PREFIX (env : option string) : string :=
  strip (match env with Some v => v | None => "" end).

End Config.

(* ------------------------------------------------------------------------- *)
(** ** Python values as the handler observes them *)

Module Py.
Import PyStr.

(** Exceptions.  Only instances of [Exception] are modelled (the ones an
    [except Exception] clause catches).  [Exc cls text] is an exception [e]
    of class [cls] with [str(e) = text] and the usual truth value of an
    object, true; [FalsyExc cls text] is one whose class gives it a false
    truth value (a [__bool__] or [__len__] of its own); [HTTPException] is
    the framework's exception the handler raises itself. *)
Inductive PyExc : Type :=
| Exc (cls : string) (text : string)
| FalsyExc (cls : string) (text : string)
| HTTPException (status_code : Z) (detail : string).

(** [bool(e)] for an exception. *)
Definition exc_truthy (e : PyExc) : bool :=
  match e with
  | FalsyExc _ _ => false
  | _ => true
  end.

(** Outcome of an expression or call: a value, or a raised exception. *)
Inductive Result (A : Type) : Type :=
| Return (a : A)
| Raise (e : PyExc).
Arguments Return {A} a.
Arguments Raise {A} e.

(** The arguments this program ever passes to a callable: a [str]
    (the username) or an [int] (the lookback window). *)
Inductive Scalar : Type :=
| SInt (z : Z)
| SStr (s : string).

(** An object other than the built-in scalars and [dict], described by what
    can be observed of it.  [ob_dict] holds the entries of [vars(obj)] whose
    keys are [str], in order ([None] when the object has no [__dict__], as
    with [__slots__] classes, lists or floats); [ob_odd_key] tells whether
    [vars(obj)] also has a key that is not a [str] (possible by writing to
    [__dict__] directly): it is the exception that [k.startswith("_")]
    raises on the first such key; [ob_class] are the attributes found
    through its type, methods already bound; [ob_call] is what calling it
    does, [None] when it is not callable; [ob_truth] is what [bool(obj)]
    gives, which a [__bool__] or [__len__] of the class may make raise. *)
Record PyObj (V : Type) : Type := mkObj {
  ob_type : string;
  ob_dict : option (list (string * V));
  ob_odd_key : option PyExc;
  ob_class : list (string * V);
  ob_call : option (list Scalar -> list (string * Scalar) -> Result V);
  ob_truth : Result bool;
  ob_str : Result string;
  ob_repr : Result string
}.
Arguments mkObj {V}.
Arguments ob_type {V}.
Arguments ob_dict {V}.
Arguments ob_odd_key {V}.
Arguments ob_class {V}.
Arguments ob_call {V}.
Arguments ob_truth {V}.
Arguments ob_str {V}.
Arguments ob_repr {V}.

#[local] Set Warnings "-register-all".

(** Values.  A [dict] is an association list in insertion order with [str]
    keys. *)
Inductive PyVal : Type :=
| VNone
| VBool (b : bool)
| VInt (z : Z)
| VStr (s : string)
| VDict (items : list (string * PyVal))
| VObj (o : PyObj PyVal).

Definition of_scalar (a : Scalar) : PyVal :=
  match a with SInt z => VInt z | SStr s => VStr s end.

(** [v is not None] *)
Definition is_not_none (v : PyVal) : bool :=
  match v with VNone => false | _ => true end.

(** [isinstance(v, dict)] *)
Definition isinstance_dict (v : PyVal) : bool :=
  match v with VDict _ => true | _ => false end.

(** [bool(v)] *)
Definition truthy (v : PyVal) : Result bool :=
  match v with
  | VNone => Return false
  | VBool b => Return b
  | VInt z => Return (negb (Z.eqb z 0))
  | VStr s => Return (negb (is_empty s))
  | VDict items => Return (match items with [] => false | _ => true end)
  | VObj o => ob_truth o
  end.

(** [a or b]: the truth value of [a] is taken, which may raise; [b] is
    handed on as it is. *)
Definition py_or (a b : PyVal) : Result PyVal :=
  match truthy a with
  | Return true => Return a
  | Return false => Return b
  | Raise e => Raise e
  end.

(** [type(v).__name__] *)
Definition type_name (v : PyVal) : string :=
  match v with
  | VNone => "NoneType"
  | VBool _ => "bool"
  | VInt _ => "int"
  | VStr _ => "str"
  | VDict _ => "dict"
  | VObj o => ob_type o
  end.

Fixpoint lookup {A : Type} (k : string) (l : list (string * A)) : option A :=
  match l with
  | [] => None
  | (k', v) :: l' => if String.eqb k k' then Some v else lookup k l'
  end.

(** The [str]-keyed entries of [v.__dict__], [None] when [v] has no
    [__dict__]. *)
Definition py_dict (v : PyVal) : option (list (string * PyVal)) :=
  match v with
  | VObj o => ob_dict o
  | _ => None
  end.

(** The exception met on the first key of [vars(v)] that is not a [str],
    [None] when every key is a [str]. *)
Definition odd_key (v : PyVal) : option PyExc :=
  match v with
  | VObj o => ob_odd_key o
  | _ => None
  end.

(** [vars(v)] read as a mapping with [str] keys: [None] when [v] has no
    [__dict__], and also when some key of it is not a [str]. *)
Definition py_vars (v : PyVal) : option (list (string * PyVal)) :=
  match odd_key v with
  | Some _ => None
  | None => py_dict v
  end.

(** Attribute lookup, [None] for [AttributeError]: the instance dictionary
    first, then the type.  The built-in scalars and [dict] have none of the
    attributes this program asks for.  A lookup that raises anything else
    (a property or a [__getattr__] hook that fails) has no image here: the
    objects spoken of are those whose lookups find a value or end in
    [AttributeError]. *)
Definition py_getattr (v : PyVal) (name : string) : option PyVal :=
  if String.eqb name "__dict__" then option_map VDict (py_dict v)
  else match v with
       | VObj o =>
           match ob_dict o with
           | Some d => match lookup name d with
                       | Some x => Some x
                       | None => lookup name (ob_class o)
                       end
           | None => lookup name (ob_class o)
           end
       | _ => None
       end.

(** [hasattr(v, name)] *)
Definition hasattr (v : PyVal) (name : string) : bool :=
  match py_getattr v name with Some _ => true | None => false end.

(** [getattr(v, name, default)] *)
Definition getattr_default (v : PyVal) (name : string) (default : PyVal) : PyVal :=
  match py_getattr v name with Some x => x | None => default end.

(** A call of [f] with positional and keyword arguments. *)
Definition py_call (f : PyVal) (args : list Scalar)
    (kwargs : list (string * Scalar)) : Result PyVal :=
  match f with
  | VObj o =>
      match ob_call o with
      | Some body => body args kwargs
      | None => Raise (Exc "TypeError" ("'" ++ ob_type o ++ "' object is not callable"))
      end
  | _ => Raise (Exc "TypeError" ("'" ++ type_name f ++ "' object is not callable"))
  end.

(** Decimal text of an integer. *)
Definition str_of_Z (z : Z) : string := NilZero.string_of_int (Z.to_int z).

(** The interpreter's limit on the number of digits in an [int] to [str]
    conversion (CPython's default for [sys.get_int_max_str_digits()]). *)
Definition int_max_str_digits : nat := 4300.

(** Number of decimal digits of [z], sign not counted. *)
Definition int_digits (z : Z) : nat := String.length (str_of_Z (Z.abs z)).

(** [str(z)] and [repr(z)] for an [int]: the decimal text, or ValueError
    beyond the digit limit (message as in CPython 3.12). *)
Definition int_text (z : Z) : Result string :=
  if Nat.leb (int_digits z) int_max_str_digits then Return (str_of_Z z)
  else Raise (Exc "ValueError"
                ("Exceeds the limit (4300 digits) for integer string conversion; "
                 ++ "use sys.set_int_max_str_digits() to increase the limit")).

Definition hex_digit (n : nat) : ascii :=
  nth n (list_ascii_of_string "0123456789abcdef") "0"%char.

Definition dquote : ascii := ascii_of_nat 34.
Definition squote : ascii := "'"%char.
Definition backslash : ascii := ascii_of_nat 92.

(** One character of [repr(s)] for a [str], with [quote] the chosen quote. *)
Definition repr_char (quote c : ascii) : string :=
  let n := nat_of_ascii c in
  if Ascii.eqb c quote || Ascii.eqb c backslash
  then String backslash (String c EmptyString)
  else if (n =? 9)%nat then String backslash "t"
  else if (n =? 10)%nat then String backslash "n"
  else if (n =? 13)%nat then String backslash "r"
  else if ((n <? 32) || (n =? 127) || ((128 <=? n) && (n <=? 160)) || (n =? 173))%nat
  then String backslash
         (String "x" (String (hex_digit (n / 16)) (String (hex_digit (n mod 16)) EmptyString)))
  else String c EmptyString.

Fixpoint repr_chars (quote : ascii) (s : string) : string :=
  match s with
  | EmptyString => EmptyString
  | String c s' => repr_char quote c ++ repr_chars quote s'
  end.

(** [repr(s)] for a [str]: single quotes, unless the text holds a single
    quote and no double quote. *)
Definition repr_str (s : string) : string :=
  let has q := negb (all_chars (fun c => negb (Ascii.eqb c q)) s) in
  let quote := if has squote && negb (has dquote) then dquote else squote in
  String quote (repr_chars quote s ++ String quote EmptyString).

Definition str_of_bool (b : bool) : string := if b then "True" else "False".

(** [", ".join(parts)] *)
Fixpoint comma_join (parts : list string) : string :=
  match parts with
  | [] => EmptyString
  | [p] => p
  | p :: rest => p ++ ", " ++ comma_join rest
  end.

(** [repr(v)] *)
Fixpoint py_repr (v : PyVal) : Result string :=
  match v with
  | VNone => Return "None"
  | VBool b => Return (str_of_bool b)
  | VInt z => int_text z
  | VStr s => Return (repr_str s)
  | VDict items =>
      let fix entries (l : list (string * PyVal)) : Result (list string) :=
        match l with
        | [] => Return []
        | (k, x) :: l' =>
            match py_repr x with
            | Raise e => Raise e
            | Return r =>
                match entries l' with
                | Raise e => Raise e
                | Return rs => Return ((repr_str k ++ ": " ++ r) :: rs)
                end
            end
        end in
      match entries items with
      | Raise e => Raise e
      | Return parts => Return ("{" ++ comma_join parts ++ "}")
      end
  | VObj o => ob_repr o
  end.

(** [str(v)] *)
Definition py_str (v : PyVal) : Result string :=
  match v with
  | VStr s => Return s
  | VObj o => ob_str o
  | _ => py_repr v
  end.

End Py.

(* ------------------------------------------------------------------------- *)
(** ** The gateway: resolution state, resolver and handlers *)

Module Gateway.
Import PyStr Py.

(** What lies outside main.py: what [importlib.import_module] gives for a
    module name, and the text [str(e)] of the framework's [HTTPException]
    (it depends on the installed framework version, so it is left open). *)
Record World : Type := mkWorld {
  import_module : string -> Result PyVal;
  http_exception_str : Z -> string -> string
}.

(** [str(e)], as the f-strings of the handler format a caught exception. *)
Definition exc_str (w : World) (e : PyExc) : string :=
  match e with
  | Exc _ text => text
  | FalsyExc _ text => text
  | HTTPException code detail => http_exception_str w code detail
  end.

(** The module globals of lines 37-39. *)
Record State : Type := mkState {
  _ScannerCls : PyVal;
  _analyze_fn : PyVal;
  _loaded : bool
}.

Definition initial : State :=
  {| _ScannerCls := VNone; _analyze_fn := VNone; _loaded := false |}.

(** Calls that leave main.py, in the order they are made. *)
Inductive Event : Type :=
| EvImport (name : string)
| EvAnalyzeFn (username : string)
| EvConstruct (kwargs : list (string * Scalar))
| EvMethod (name : string) (username : string).

(** Computations over the globals that may raise and that log their outside
    calls.  An exception keeps the state reached so far. *)
Definition M (A : Type) : Type := State -> Result A * State * list Event.

Definition ret {A} (a : A) : M A := fun st => (Return a, st, []).

Definition raise {A} (e : PyExc) : M A := fun st => (Raise e, st, []).

Definition bind {A B} (m : M A) (k : A -> M B) : M B :=
  fun st =>
    match m st with
    | (Return a, st1, tr1) =>
        match k a st1 with (r, st2, tr2) => (r, st2, (tr1 ++ tr2)%list) end
    | (Raise e, st1, tr1) => (Raise e, st1, tr1)
    end.

(** [try: m  except Exception as e: h e] *)
Definition try_except {A} (m : M A) (h : PyExc -> M A) : M A :=
  fun st =>
    match m st with
    | (Return a, st1, tr1) => (Return a, st1, tr1)
    | (Raise e, st1, tr1) =>
        match h e st1 with (r, st2, tr2) => (r, st2, (tr1 ++ tr2)%list) end
    end.

Definition get : M State := fun st => (Return st, st, []).
Definition emit (ev : Event) : M unit := fun st => (Return tt, st, [ev]).
Definition lift {A} (r : Result A) : M A := fun st => (r, st, []).

Declare Scope gw_scope.
Delimit Scope gw_scope with gw.
Notation "x <- m ;; k" := (bind m (fun x => k))
  (at level 61, m at next level, right associativity) : gw_scope.
Notation "m ;;; k" := (bind m (fun _ => k))
  (at level 61, right associativity) : gw_scope.
Open Scope gw_scope.

(** [_import_first], lines 41-50: the loop over [names] with the running
    [last_err].  After the loop, line 48 tests the truth value of the
    recorded failure, not whether there is one. *)
Fixpoint import_loop (w : World) (names : list string)
    (last_err : option PyExc) : M PyVal :=
  match names with
  | n :: rest =>
      try_except (emit (EvImport n) ;;; lift (import_module w n))
                 (fun e => import_loop w rest (Some e))
  | [] =>
      match last_err with
      | Some e =>
          if exc_truthy e then raise e
          else raise (Exc "ImportError" "no module names provided")
      | None => raise (Exc "ImportError" "no module names provided")
      end
  end.

Definition _import_first (w : World) (names : list string) : M PyVal :=
  import_loop w names None.

Definition candidates : list string :=
  ["scanner"; "services.scanner"; "api.scanner"].

(** Assignments to the three globals. *)
Definition set_ScannerCls (v : PyVal) : M unit :=
  fun st => (Return tt,
             {| _ScannerCls := v; _analyze_fn := _analyze_fn st;
                _loaded := _loaded st |}, []).

Definition set_analyze_fn (v : PyVal) : M unit :=
  fun st => (Return tt,
             {| _ScannerCls := _ScannerCls st; _analyze_fn := v;
                _loaded := _loaded st |}, []).

Definition set_loaded (b : bool) : M unit :=
  fun st => (Return tt,
             {| _ScannerCls := _ScannerCls st; _analyze_fn := _analyze_fn st;
                _loaded := b |}, []).

(** [_load_scanner_once], lines 52-59. *)
Definition _load_scanner_once (w : World) : M unit :=
  st <- get ;;
  if _loaded st then ret tt
  else
    mod_ <- _import_first w candidates ;;
    set_ScannerCls (getattr_default mod_ "SusScanner" VNone) ;;;
    fn <- lift (py_or (getattr_default mod_ "analyze_user" VNone)
                      (getattr_default mod_ "analyze_player" VNone)) ;;
    set_analyze_fn fn ;;;
    set_loaded true.

(** [ScanRequest], lines 61-62. *)
Record ScanRequest : Type := mkScanRequest { username : string }.

(** The entries the comprehension of line 70 keeps. *)
Definition public_items (d : list (string * PyVal)) : list (string * PyVal) :=
  filter (fun kv => negb (startswith (fst kv) "_")) d.

(** The dict comprehension of line 70 over an object with a [__dict__]
    whose [str]-keyed entries are [d]: it raises at the first key that is
    not a [str]. *)
Definition public_dict (obj : PyVal) (d : list (string * PyVal)) : Result PyVal :=
  match odd_key obj with
  | Some e => Raise e
  | None => Return (VDict (public_items d))
  end.

(** [_to_json], lines 64-71. *)
Definition _to_json (obj : PyVal) : Result PyVal :=
  if isinstance_dict obj then Return obj
  else match py_getattr obj "model_dump" with
       | Some dump => py_call dump [] []
       | None =>
           match py_dict obj with
           | Some d => public_dict obj d
           | None =>
               match py_str obj with
               | Return text => Return (VDict [("result", VStr text)])
               | Raise e => Raise e
               end
           end
       end.

(** [scanner.<name>(username)] *)
Definition call_method (scanner : PyVal) (name u : string) : M PyVal :=
  emit (EvMethod name u) ;;;
  match py_getattr scanner name with
  | Some meth => lift (py_call meth [SStr u] [])
  | None =>
      raise (Exc "AttributeError"
               ("'" ++ type_name scanner ++ "' object has no attribute '" ++ name ++ "'"))
  end.

Definition no_entrypoints_detail : string :=
  "scanner.py loaded but no entrypoints found. " ++
  "Define class SusScanner (with analyze_user/analyze_player) or export " ++
  "analyze_user(name)/analyze_player(name).".

(** [scan], lines 73-111. *)
Definition scan (w : World) (req : ScanRequest) : M PyVal :=
  let u := strip (or_str (username req) "") in
  if is_empty u then raise (HTTPException 400 "username is required")
  else
    try_except (_load_scanner_once w)
      (fun e => raise (HTTPException 500
                         ("failed to import scanner module: " ++ exc_str w e))) ;;;
    st <- get ;;
    if is_not_none (_analyze_fn st) then
      metrics <-
        try_except
          (emit (EvAnalyzeFn u) ;;; lift (py_call (_analyze_fn st) [SStr u] []))
          (fun e => raise (HTTPException 500
                             ("analyze function failed: " ++ exc_str w e))) ;;
      lift (_to_json metrics)
    else if is_not_none (_ScannerCls st) then
      metrics <-
        try_except
          (scanner <-
             (emit (EvConstruct [("lookback_months", SInt 3)]) ;;;
              lift (py_call (_ScannerCls st) [] [("lookback_months", SInt 3)])) ;;
           if hasattr scanner "analyze_user"
           then call_method scanner "analyze_user" u
           else if hasattr scanner "analyze_player"
           then call_method scanner "analyze_player" u
           else raise (HTTPException 500
                         "SusScanner lacks analyze_user/analyze_player"))
          (fun e => raise (HTTPException 500 ("scanner failed: " ++ exc_str w e))) ;;
      lift (_to_json metrics)
    else raise (HTTPException 500 no_entrypoints_detail).

(** [health], lines 32-34. *)
Definition health : PyVal := VDict [("ok", VBool true)].

(** The JSON body of a [POST /scan] as far as the request model reads it:
    the string under ["username"], [None] when the key is absent. *)
Definition RequestBody := option string.

(** Request-model validation: [username: str] has no default, so a body
    without the key is not a [ScanRequest]. *)
Definition validate (b : RequestBody) : option ScanRequest :=
  option_map mkScanRequest b.

(** What the route does with a body: the handler runs only on a validated
    request; otherwise the framework answers by itself (a validation error)
    and the handler never runs. *)
Inductive Dispatch : Type :=
| Unprocessable
| Handled (r : Result PyVal).

Definition post_scan (w : World) (b : RequestBody) (st : State)
    : Dispatch * State * list Event :=
  match validate b with
  | None => (Unprocessable, st, [])
  | Some req =>
      match scan w req st with (r, st', tr) => (Handled r, st', tr) end
  end.

(** Serving a sequence of scan requests, one after the other, each in the
    world it finds; the states after each request and the traces. *)
Fixpoint serve (reqs : list (World * ScanRequest)) (st : State)
    : list (Result PyVal * State * list Event) :=
  match reqs with
  | [] => []
  | (w, req) :: rest =>
      match scan w req st with
      | (r, st', tr) => (r, st', tr) :: serve rest st'
      end
  end.

(** The resolver's contract in the spec's words, to compare [_import_first]
    with: the candidates are tried in order up to and including the first
    one that loads ... *)
Fixpoint tried (w : World) (names : list string) : list string :=
  match names with
  | [] => []
  | n :: rest =>
      n :: match import_module w n with
           | Return _ => []
           | Raise _ => tried w rest
           end
  end.

(** ... the first successful load wins, and when none loads the last
    failure met is the one surfaced, as long as its truth value is true
    (what line 48 asks of it). *)
Fixpoint first_success (w : World) (names : list string)
    (last_err : option PyExc) : Result PyVal :=
  match names with
  | [] =>
      match last_err with
      | Some e =>
          if exc_truthy e then Raise e
          else Raise (Exc "ImportError" "no module names provided")
      | None => Raise (Exc "ImportError" "no module names provided")
      end
  | n :: rest =>
      match import_module w n with
      | Return m => Return m
      | Raise e => first_success w rest (Some e)
      end
  end.

(** A trace holds no module load. *)
Definition no_import (tr : list Event) : bool :=
  forallb (fun ev => match ev with EvImport _ => false | _ => true end) tr.

(** A trace holds no construction of the class-style entrypoint and no call
    of a method of an instance. *)
Definition no_class_use (tr : list Event) : bool :=
  forallb (fun ev => match ev with
                     | EvConstruct _ | EvMethod _ _ => false
                     | _ => true
                     end) tr.

End Gateway.

(* ------------------------------------------------------------------------- *)
(** ** Concrete scanners, modules and worlds used as test inputs *)

Module Examples.
Import PyStr Py Gateway.

(** [str(e)] of the framework's exception as current Starlette defines it:
    the status code, a colon, the detail. *)
Definition starlette_str (code : Z) (detail : string) : string :=
  str_of_Z code ++ ": " ++ detail.

Definition opaque_text (what : string) : Result string :=
  Return ("<" ++ what ++ ">").

(** An ordinary object: [str] keys only, truthy. *)
Definition object (type : string) (dict : option (list (string * PyVal)))
    (class : list (string * PyVal))
    (call : option (list Scalar -> list (string * Scalar) -> Result PyVal))
    (text : string) : PyVal :=
  VObj (mkObj type dict None class call (Return true)
          (opaque_text text) (opaque_text text)).

(** A function that answers with a one-entry dict naming itself. *)
Definition fn (name : string) : PyVal :=
  object "function" (Some []) []
    (Some (fun _ _ => Return (VDict [("via", VStr name)]))) "function".

(** An instance of a scanner class whose type offers [methods]. *)
Definition instance (methods : list (string * PyVal)) : PyVal :=
  object "SusScanner" (Some [("lookback_months", VInt 3)]) methods None
    "SusScanner object".

(** A scanner class whose instances offer [methods]. *)
Definition scanner_class (methods : list (string * PyVal)) : PyVal :=
  object "type" (Some []) [] (Some (fun _ _ => Return (instance methods)))
    "class SusScanner".

(** A module with the given globals. *)
Definition py_module (globals : list (string * PyVal)) : PyVal :=
  object "module" (Some globals) [] None "module".

Definition not_found (name : string) : PyExc :=
  Exc "ModuleNotFoundError" ("No module named '" ++ name ++ "'").

(** No candidate module can be imported. *)
Definition no_scanner : World :=
  mkWorld (fun name => Raise (not_found name)) starlette_str.

(** Only [services.scanner] exists, and it is [m]. *)
Definition services_scanner (m : PyVal) : World :=
  mkWorld (fun name => if String.eqb name "services.scanner" then Return m
                       else Raise (not_found name))
          starlette_str.

(** No candidate can be imported, and the failure of the last one,
    [api.scanner], is an exception whose truth value is false (its class
    defines [__len__], and it holds no entries). *)
Definition falsy_last_failure : World :=
  mkWorld (fun name => if String.eqb name "api.scanner"
                       then Raise (FalsyExc "EmptyIndexError" "scanner index is empty")
                       else Raise (not_found name))
          starlette_str.

Definition magnus : ScanRequest := mkScanRequest " magnus ".

(** The globals once module [m] has been loaded and inspected. *)
Definition after_load (m : PyVal) : State :=
  {| _ScannerCls := getattr_default m "SusScanner" VNone;
     _analyze_fn :=
       match py_or (getattr_default m "analyze_user" VNone)
                   (getattr_default m "analyze_player" VNone) with
       | Return f => f
       | Raise _ => VNone
       end;
     _loaded := true |}.

(** A state in which resolution has completed with a function handle. *)
Definition resolved : State :=
  {| _ScannerCls := VNone; _analyze_fn := fn "analyze_user"; _loaded := true |}.

Definition both_styles : PyVal :=
  py_module
    [("SusScanner", scanner_class [("analyze_user", fn "SusScanner.analyze_user")]);
     ("analyze_user", fn "analyze_user");
     ("analyze_player", fn "analyze_player")].

Definition class_with_both_methods : PyVal :=
  py_module
    [("SusScanner",
      scanner_class [("analyze_player", fn "SusScanner.analyze_player");
                     ("analyze_user", fn "SusScanner.analyze_user")])].

Definition class_without_methods : PyVal :=
  py_module [("SusScanner", scanner_class [])].

(** A result object whose [model_dump] raises. *)
Definition failing_dump : PyVal :=
  object "Report" (Some [("score", VInt 7)])
    [("model_dump",
      object "method" None []
        (Some (fun _ _ => Raise (Exc "ValueError" "cannot serialize")))
        "bound method")]
    None "Report object".

(** A result object with a private and a public attribute. *)
Definition report : PyVal :=
  object "Report" (Some [("_raw", VInt 1); ("score", VInt 7)]) [] None
    "Report object".

(** A result object with a working [model_dump]. *)
Definition model : PyVal :=
  object "Model" (Some [("score", VInt 7)])
    [("model_dump",
      object "method" None []
        (Some (fun _ _ => Return (VDict [("score", VInt 7)])))
        "bound method")]
    None "Model object".

(** A result object into whose [__dict__] an [int] key was written. *)
Definition odd_report : PyVal :=
  VObj (mkObj "Report" (Some [("score", VInt 7)])
          (Some (Exc "AttributeError" "'int' object has no attribute 'startswith'"))
          [] None (Return true)
          (opaque_text "Report object") (opaque_text "Report object")).

(** A module that defines none of the expected names. *)
Definition empty_module : PyVal := py_module [("VERSION", VStr "1.5")].

(** A module whose class offers analyze_player only. *)
Definition class_with_analyze_player : PyVal :=
  py_module
    [("SusScanner",
      scanner_class [("analyze_player", fn "SusScanner.analyze_player")])].

(** A module whose class cannot be constructed. *)
Definition class_that_fails : PyVal :=
  py_module
    [("SusScanner",
      object "type" (Some []) []
        (Some (fun _ _ => Raise (Exc "RuntimeError" "no database")))
        "class SusScanner")].

(** A module whose analyze_user is a string, beside a working class. *)
Definition uncallable_function : PyVal :=
  py_module
    [("analyze_user", VStr "todo");
     ("SusScanner", scanner_class [("analyze_user", fn "SusScanner.analyze_user")])].

(** An object whose truth value cannot be taken: its [__bool__] raises. *)
Definition moody : PyVal :=
  VObj (mkObj "Lazy" (Some []) None [] None
          (Raise (Exc "RuntimeError" "scanner not configured"))
          (opaque_text "Lazy object") (opaque_text "Lazy object")).

(** A module whose analyze_user is such an object, beside a working class. *)
Definition moody_module : PyVal :=
  py_module
    [("SusScanner", scanner_class [("analyze_user", fn "SusScanner.analyze_user")]);
     ("analyze_user", moody)].

End Examples.

(* ------------------------------------------------------------------------- *)
(** * Properties *)

(** ** Strings *)

Section StringFacts.
Import PyStr.

Lemma rstrip_blank (s : string) : is_empty (rstrip s) = all_chars isspace s.
Proof.
  induction s as [|c s IH]; simpl; [reflexivity|].
  rewrite <- IH.
  destruct (isspace c); simpl; [|reflexivity].
  destruct (is_empty (rstrip s)); reflexivity.
Qed.

Lemma lstrip_blank (s : string) :
  all_chars isspace (lstrip s) = all_chars isspace s.
Proof.
  induction s as [|c s IH]; simpl; [reflexivity|].
  destruct (isspace c) eqn:E; simpl; [exact IH | now rewrite E].
Qed.

(** A string trims to nothing exactly when it is all whitespace. *)
Lemma strip_blank (s : string) : is_empty (strip s) = all_chars isspace s.
Proof. unfold strip. now rewrite rstrip_blank, lstrip_blank. Qed.

Lemma rstrip_idem (s : string) : rstrip (rstrip s) = rstrip s.
Proof.
  induction s as [|c s IH]; simpl; [reflexivity|].
  destruct (isspace c && is_empty (rstrip s)) eqn:E; simpl; [reflexivity|].
  now rewrite IH, E.
Qed.

Lemma lstrip_head (s : string) :
  match lstrip s with
  | EmptyString => True
  | String c _ => isspace c = false
  end.
Proof.
  induction s as [|c s IH]; simpl; [exact I|].
  destruct (isspace c) eqn:E; [exact IH | exact E].
Qed.

Lemma strip_idem (s : string) : strip (strip s) = strip s.
Proof.
  unfold strip.
  pose proof (lstrip_head s) as H.
  destruct (lstrip s) as [|c t]; [reflexivity|].
  assert (L : lstrip (rstrip (String c t)) = rstrip (String c t)).
  { simpl. rewrite H. simpl. now rewrite H. }
  now rewrite L, rstrip_idem.
Qed.

Lemma split_cons (sep : ascii) (s : string) :
  exists p rest, split sep s = p :: rest.
Proof.
  destruct s as [|c s]; simpl; [now eexists _, _|].
  destruct (Ascii.eqb c sep); [now eexists _, _|].
  destruct (split sep s); now eexists _, _.
Qed.

(** Joining the pieces with the separator gives the text back. *)
Lemma join_split (sep : ascii) (s : string) : join sep (split sep s) = s.
Proof.
  induction s as [|c s IH]; simpl; [reflexivity|].
  destruct (split_cons sep s) as (p & rest & E).
  rewrite E in *.
  destruct (Ascii.eqb_spec c sep) as [->|N].
  - change (String sep (join sep (p :: rest)) = String sep s).
    now rewrite IH.
  - destruct rest as [|q rest].
    + simpl in *. now rewrite IH.
    + change (String c (p ++ String sep (join sep (q :: rest))) = String c s).
      change (p ++ String sep (join sep (q :: rest)) = s) in IH.
      now rewrite IH.
Qed.

(** No piece holds the separator. *)
Lemma split_no_sep (sep : ascii) (s : string) :
  Forall (fun p => all_chars (fun c => negb (Ascii.eqb c sep)) p = true)
         (split sep s).
Proof.
  induction s as [|c s IH]; simpl; [now constructor|].
  destruct (Ascii.eqb c sep) eqn:E; [now constructor|].
  destruct (split sep s) as [|p rest]; constructor; simpl;
    try rewrite E; simpl; try now constructor.
  - now inversion IH.
  - now inversion IH.
Qed.

(** All pieces are blank exactly when the text holds only whitespace and
    separators. *)
Lemma split_all_blank (sep : ascii) (s : string) :
  forallb (fun o => is_empty (strip o)) (split sep s)
  = all_chars (fun c => isspace c || Ascii.eqb c sep) s.
Proof.
  induction s as [|c s IH]; simpl; [reflexivity|].
  destruct (Ascii.eqb c sep) eqn:E.
  - simpl. rewrite IH. now rewrite orb_true_r.
  - rewrite orb_false_r, <- IH.
    destruct (split_cons sep s) as (p & rest & Es). rewrite Es. simpl.
    rewrite !strip_blank. simpl. now rewrite andb_assoc.
Qed.

Lemma filter_none {A} (f : A -> bool) (l : list A) :
  match filter (fun x => negb (f x)) l with [] => true | _ => false end
  = forallb f l.
Proof.
  induction l as [|x l IH]; simpl; [reflexivity|].
  destruct (f x); simpl; [exact IH | reflexivity].
Qed.


Lemma is_empty_eq (s : string) : is_empty s = true -> s = "".
Proof. now destruct s. Qed.

Lemma all_chars_lstrip (p : ascii -> bool) (s : string) :
  all_chars p s = true -> all_chars p (lstrip s) = true.
Proof.
  induction s as [|c s IH]; simpl; [easy|].
  intros H. apply andb_prop in H. destruct H as [Hc Hs].
  destruct (isspace c); [now apply IH | simpl; now rewrite Hc, Hs].
Qed.

Lemma all_chars_rstrip (p : ascii -> bool) (s : string) :
  all_chars p s = true -> all_chars p (rstrip s) = true.
Proof.
  induction s as [|c s IH]; simpl; [easy|].
  intros H. apply andb_prop in H. destruct H as [Hc Hs].
  destruct (isspace c && is_empty (rstrip s)); simpl; [reflexivity|].
  now rewrite Hc, IH.
Qed.

(** Trimming brings in no character that was not there. *)
Lemma all_chars_strip (p : ascii -> bool) (s : string) :
  all_chars p s = true -> all_chars p (strip s) = true.
Proof. intros H. now apply all_chars_rstrip, all_chars_lstrip. Qed.

(** A trimmed text has nothing left to trim on either side. *)
Lemma lstrip_strip (s : string) : lstrip (strip s) = strip s.
Proof.
  unfold strip. pose proof (lstrip_head s) as H.
  destruct (lstrip s) as [|c t]; [reflexivity|].
  simpl. rewrite H. simpl. now rewrite H.
Qed.

Lemma rstrip_strip (s : string) : rstrip (strip s) = strip s.
Proof. unfold strip. apply rstrip_idem. Qed.

Lemma lstrip_pad (pad s : string) :
  all_chars isspace pad = true -> lstrip (pad ++ s) = lstrip s.
Proof.
  induction pad as [|c pad IH]; simpl; [easy|].
  intros H. apply andb_prop in H. destruct H as [Hc Hp].
  rewrite Hc. now apply IH.
Qed.

Lemma rstrip_pad (s pad : string) :
  all_chars isspace pad = true -> rstrip (s ++ pad) = rstrip s.
Proof.
  intros H. induction s as [|c s IH]; simpl.
  - apply is_empty_eq. now rewrite rstrip_blank.
  - now rewrite IH.
Qed.

Lemma strip_pad_right (s pad : string) :
  all_chars isspace pad = true -> strip (s ++ pad) = strip s.
Proof.
  intros H. unfold strip. induction s as [|c s IH]; simpl.
  - apply is_empty_eq. now rewrite rstrip_blank, lstrip_blank.
  - destruct (isspace c); [exact IH|].
    change (String c (s ++ pad)) with (String c s ++ pad).
    now apply rstrip_pad.
Qed.

(** Whitespace around a text does not change what it trims to. *)
Lemma strip_pad (left_pad s right_pad : string) :
  all_chars isspace left_pad = true ->
  all_chars isspace right_pad = true ->
  strip (left_pad ++ s ++ right_pad) = strip s.
Proof.
  intros Hl Hr. unfold strip at 1. rewrite (lstrip_pad _ _ Hl).
  now apply strip_pad_right.
Qed.

Lemma split_single (sep : ascii) (p : string) :
  all_chars (fun c => negb (Ascii.eqb c sep)) p = true -> split sep p = [p].
Proof.
  induction p as [|c p IH]; simpl; [reflexivity|].
  intros H. apply andb_prop in H. destruct H as [Hc Hp].
  apply negb_true_iff in Hc. rewrite Hc, (IH Hp). reflexivity.
Qed.

Lemma split_piece (sep : ascii) (p rest : string) :
  all_chars (fun c => negb (Ascii.eqb c sep)) p = true ->
  split sep (p ++ String sep rest) = p :: split sep rest.
Proof.
  induction p as [|c p IH]; simpl.
  - now rewrite Ascii.eqb_refl.
  - intros H. apply andb_prop in H. destruct H as [Hc Hp].
    apply negb_true_iff in Hc. rewrite Hc, (IH Hp). reflexivity.
Qed.

(** Cutting a joined list at the separator gives the list back, provided
    there is at least one piece and no piece holds the separator. *)
Lemma split_join (sep : ascii) (pieces : list string) :
  pieces <> [] ->
  Forall (fun p => all_chars (fun c => negb (Ascii.eqb c sep)) p = true) pieces ->
  split sep (join sep pieces) = pieces.
Proof.
  induction pieces as [|p rest IH]; [congruence|].
  intros _ H. inversion H as [|? ? Hp Hrest]; subst.
  destruct rest as [|q rest].
  - now apply split_single.
  - change (join sep (p :: q :: rest)) with (p ++ String sep (join sep (q :: rest))).
    rewrite (split_piece _ _ _ Hp). f_equal. apply IH; [congruence | exact Hrest].
Qed.

Lemma lstrip_split (s : string) :
  exists pad, all_chars isspace pad = true /\ s = pad ++ lstrip s.
Proof.
  induction s as [|c s (pad & P & E)]; simpl.
  - now exists "".
  - destruct (isspace c) eqn:C.
    + exists (String c pad). simpl. rewrite C, P. split; [reflexivity|].
      now rewrite <- E.
    + now exists "".
Qed.

Lemma rstrip_split (s : string) :
  exists pad, all_chars isspace pad = true /\ s = rstrip s ++ pad.
Proof.
  induction s as [|c s (pad & P & E)]; simpl.
  - now exists "".
  - destruct (isspace c && is_empty (rstrip s)) eqn:C.
    + apply andb_prop in C. destruct C as [Cc Cr].
      apply is_empty_eq in Cr. rewrite Cr in E. simpl in E. subst pad.
      exists (String c s). simpl. now rewrite Cc, P.
    + exists pad. split; [exact P|]. simpl. now rewrite <- E.
Qed.

Lemma rstrip_keeps_head (s : string) :
  starts_with_space s = false -> starts_with_space (rstrip s) = false.
Proof.
  destruct s as [|c s]; simpl; [easy|]. intros C. now rewrite C.
Qed.

Lemma rstrip_end (s : string) : ends_with_space (rstrip s) = false.
Proof.
  induction s as [|c s IH]; simpl; [reflexivity|].
  destruct (isspace c && is_empty (rstrip s)) eqn:C; [reflexivity|].
  destruct (rstrip s) as [|d r] eqn:R.
  - simpl in *. now rewrite andb_true_r in C.
  - exact IH.
Qed.

Lemma lstrip_start (s : string) : starts_with_space (lstrip s) = false.
Proof.
  pose proof (lstrip_head s) as H. now destruct (lstrip s).
Qed.

(** [strip] does trim: its result is the text with whitespace taken off both
    ends and none left at either end. *)
Lemma strip_trims (s : string) : trimmed_from s (strip s).
Proof.
  destruct (lstrip_split s) as (l & Pl & El).
  destruct (rstrip_split (lstrip s)) as (r & Pr & Er).
  exists l, r. repeat split; try assumption.
  - unfold strip. now rewrite <- Er.
  - unfold strip. apply rstrip_keeps_head, lstrip_start.
  - unfold strip. apply rstrip_end.
Qed.

Lemma lstrip_clean (s : string) : starts_with_space s = false -> lstrip s = s.
Proof. destruct s as [|c s]; simpl; [easy|]. now intros ->. Qed.

Lemma rstrip_clean (s : string) : ends_with_space s = false -> rstrip s = s.
Proof.
  induction s as [|c s IH]; simpl; [easy|].
  destruct s as [|d s].
  - intros C. simpl. now rewrite C.
  - intros E. rewrite (IH E). simpl.
    now rewrite andb_false_r.
Qed.

(** ... and nothing else is: the trimmed text is unique. *)
Lemma trimmed_is_strip (text core : string) :
  trimmed_from text core -> core = strip text.
Proof.
  intros (l & r & Pl & Pr & -> & S & E).
  rewrite (strip_pad _ _ _ Pl Pr). unfold strip.
  now rewrite (lstrip_clean _ S), (rstrip_clean _ E).
Qed.

Lemma trims_each (pieces : list string) :
  Forall2 trimmed_from pieces (map strip pieces).
Proof. induction pieces; simpl; constructor; [apply strip_trims | assumption]. Qed.

Lemma trims_each_unique (pieces others : list string) :
  Forall2 trimmed_from pieces others -> others = map strip pieces.
Proof.
  induction 1 as [|p o ps os T _ IH]; simpl; [reflexivity|].
  now rewrite IH, (trimmed_is_strip _ _ T).
Qed.

Lemma filter_blank (pieces : list string) :
  filter (fun o => negb (is_empty (strip o))) pieces
  = filter (fun p => negb (all_chars isspace p)) pieces.
Proof. apply filter_ext. intros p. now rewrite strip_blank. Qed.

End StringFacts.

(** ** CORS configuration *)

Section CorsFacts.
Import PyStr Cors.

Lemma blank_setting_pieces (env : Env) :
  blank_setting env
  = forallb (fun o => is_empty (strip o)) (split "," (origins_env env)).
Proof.
  destruct env as [v|]; simpl; [|reflexivity].
  now rewrite split_all_blank.
Qed.

Lemma blank_setting_configured (env : Env) :
  blank_setting env
  = match configured_origins env with [] => true | _ => false end.
Proof.
  rewrite blank_setting_pieces. unfold configured_origins.
  rewrite <- filter_none.
  now destruct (filter _ _).
Qed.

Lemma configured_trimmed (env : Env) :
  Forall (fun o => strip o = o /\ is_empty o = false) (configured_origins env).
Proof.
  unfold configured_origins.
  apply Forall_forall. intros o Ho.
  apply in_map_iff in Ho. destruct Ho as (x & <- & Hx).
  apply filter_In in Hx. destruct Hx as [_ Hx].
  split; [apply strip_idem | now destruct (is_empty (strip x))].
Qed.

(** C8.  [allow_origins] is a function of the [CORS_ORIGINS] setting alone.
    The setting is cut at its commas (the pieces joined by commas give the
    setting back, and no piece holds a comma).  The pieces that are not all
    whitespace are kept, in order, and each is trimmed: its entry is the
    piece with the whitespace taken off both ends and none left at either
    end, and the entries are the only list of texts that stands in this
    relation to the kept pieces.  When the variable is unset, empty, or
    holds only whitespace and commas, there is no entry and the built-in
    default list is used; otherwise the entries are used. *)
Theorem allow_origins_from_env (env : Env) :
  let setting := match env with Some v => v | None => "" end in
  let pieces := split "," setting in
  let kept := filter (fun p => negb (all_chars isspace p)) pieces in
  let entries :=
    map strip (filter (fun o => negb (is_empty (strip o))) pieces) in
  join "," pieces = setting /\
  Forall (fun p => all_chars (fun c => negb (Ascii.eqb c ",")) p = true) pieces /\
  Forall (fun o => strip o = o /\ is_empty o = false) entries /\
  Forall2 trimmed_from kept entries /\
  (forall others, Forall2 trimmed_from kept others -> others = entries) /\
  blank_setting env = match entries with [] => true | _ => false end /\
  allow_origins env
  = if blank_setting env then DEFAULT_ORIGINS else entries.
Proof.
  cbv zeta.
  change (match env with Some v => v | None => "" end) with (origins_env env).
  change (map strip (filter (fun o => negb (is_empty (strip o)))
                            (split "," (origins_env env))))
    with (configured_origins env).
  split; [apply join_split|]. split; [apply split_no_sep|].
  split; [apply configured_trimmed|].
  split; [|split; [|split]].
  - unfold configured_origins. rewrite filter_blank. apply trims_each.
  - intros others H. unfold configured_origins. rewrite filter_blank.
    now apply trims_each_unique.
  - apply blank_setting_configured.
  - rewrite blank_setting_configured. unfold allow_origins.
    now destruct (configured_origins env).
Qed.

End CorsFacts.

(** ** The resolver *)

Section ResolverFacts.
Import PyStr Py Gateway.

Lemma or_str_empty (s : string) : or_str s "" = s.
Proof. now destruct s. Qed.

(** [_import_first] refines the contract: it leaves the globals alone, tries
    exactly [tried], and ends as [first_success] says. *)
Lemma import_loop_refines (w : World) (names : list string) :
  forall last st,
    import_loop w names last st
    = (first_success w names last, st, map EvImport (tried w names)).
Proof.
  induction names as [|n rest IH]; intros last st; simpl.
  - destruct last as [e|]; [|reflexivity]. now destruct (exc_truthy e).
  - unfold try_except, bind, emit, lift.
    destruct (import_module w n) as [m|e]; simpl; [reflexivity|].
    now rewrite IH.
Qed.

Lemma tried_prefix (w : World) (names : list string) :
  exists later, names = (tried w names ++ later)%list.
Proof.
  induction names as [|n rest [later IH]]; simpl; [now exists []|].
  destruct (import_module w n).
  - now exists rest.
  - exists later. now f_equal.
Qed.

Lemma no_class_use_app (t1 t2 : list Event) :
  no_class_use (t1 ++ t2) = no_class_use t1 && no_class_use t2.
Proof. apply forallb_app. Qed.

Lemma no_class_use_imports (names : list string) :
  no_class_use (map EvImport names) = true.
Proof. induction names; simpl; auto. Qed.

(** A completed resolution is never repeated. *)
Lemma load_when_loaded (w : World) (st : State) :
  _loaded st = true -> _load_scanner_once w st = (Return tt, st, []).
Proof.
  intros H. unfold _load_scanner_once, bind, get. now rewrite H.
Qed.

(** A resolution not yet completed tries the candidates.  When none loads
    nothing is recorded.  When one loads, its SusScanner attribute is
    recorded first; the function handle and the completion mark follow only
    if taking the truth value of analyze_user does not raise. *)
Lemma load_when_not_loaded (w : World) (st : State) :
  _loaded st = false ->
  _load_scanner_once w st
  = match first_success w candidates None with
    | Return m =>
        match py_or (getattr_default m "analyze_user" VNone)
                    (getattr_default m "analyze_player" VNone) with
        | Return fn =>
            (Return tt,
             {| _ScannerCls := getattr_default m "SusScanner" VNone;
                _analyze_fn := fn;
                _loaded := true |},
             map EvImport (tried w candidates))
        | Raise e =>
            (Raise e,
             {| _ScannerCls := getattr_default m "SusScanner" VNone;
                _analyze_fn := _analyze_fn st;
                _loaded := false |},
             map EvImport (tried w candidates))
        end
    | Raise e => (Raise e, st, map EvImport (tried w candidates))
    end.
Proof.
  intros H. unfold _load_scanner_once, bind, get. rewrite H.
  unfold _import_first. rewrite import_loop_refines.
  destruct (first_success w candidates None) as [m|e]; simpl; [|reflexivity].
  unfold lift.
  destruct (py_or _ _) as [fn|e]; simpl; rewrite ?H, ?app_nil_r; reflexivity.
Qed.

(** Whatever the resolver does, it only imports. *)
Lemma load_only_imports (w : World) (st : State) r st1 tr1 :
  _load_scanner_once w st = (r, st1, tr1) -> no_class_use tr1 = true.
Proof.
  destruct (_loaded st) eqn:L.
  - rewrite load_when_loaded by exact L. intros [= _ _ <-]. reflexivity.
  - rewrite load_when_not_loaded by exact L.
    destruct (first_success w candidates None); [destruct (py_or _ _)|];
      intros [= _ _ <-]; apply no_class_use_imports.
Qed.

Lemma contains_unfold (needle hay : string) :
  contains needle hay
  = String.prefix needle hay
    || match hay with
       | EmptyString => false
       | String _ hay' => contains needle hay'
       end.
Proof. now destruct hay. Qed.

End ResolverFacts.

(** ** The scan handler, path by path *)

Section ScanPaths.
Import PyStr Py Gateway.

Variable w : World.
Variable req : ScanRequest.
Variable st : State.

Ltac enter_scan :=
  unfold scan; rewrite or_str_empty.

Ltac step_monad :=
  unfold bind, try_except, get, raise, ret, emit, lift, call_method; simpl.

Ltac tidy_trace :=
  simpl; repeat rewrite app_nil_r; repeat rewrite <- app_assoc; simpl.

(** Lines 75-77. *)
Lemma scan_blank :
  is_empty (strip (username req)) = true ->
  scan w req st = (Raise (HTTPException 400 "username is required"), st, []).
Proof. intros B. enter_scan. now rewrite B. Qed.

(** Lines 79-82. *)
Lemma scan_resolution_failure e st1 tr1 :
  is_empty (strip (username req)) = false ->
  _load_scanner_once w st = (Raise e, st1, tr1) ->
  scan w req st
  = (Raise (HTTPException 500 ("failed to import scanner module: " ++ exc_str w e)),
     st1, tr1).
Proof.
  intros B L. enter_scan. rewrite B. step_monad. rewrite L.
  now tidy_trace.
Qed.

(** Lines 84-90. *)
Lemma scan_function_style st1 tr1 :
  is_empty (strip (username req)) = false ->
  _load_scanner_once w st = (Return tt, st1, tr1) ->
  is_not_none (_analyze_fn st1) = true ->
  scan w req st
  = (match py_call (_analyze_fn st1) [SStr (strip (username req))] [] with
     | Return metrics => _to_json metrics
     | Raise e => Raise (HTTPException 500 ("analyze function failed: " ++ exc_str w e))
     end,
     st1, (tr1 ++ [EvAnalyzeFn (strip (username req))])%list).
Proof.
  intros B L F. enter_scan. rewrite B. step_monad. rewrite L, F.
  destruct (py_call (_analyze_fn st1) [SStr (strip (username req))] []); now tidy_trace.
Qed.

(** Line 95 failing: the constructor raises. *)
Lemma scan_class_constructor_fails st1 tr1 e :
  is_empty (strip (username req)) = false ->
  _load_scanner_once w st = (Return tt, st1, tr1) ->
  is_not_none (_analyze_fn st1) = false ->
  is_not_none (_ScannerCls st1) = true ->
  py_call (_ScannerCls st1) [] [("lookback_months", SInt 3)] = Raise e ->
  scan w req st
  = (Raise (HTTPException 500 ("scanner failed: " ++ exc_str w e)),
     st1, (tr1 ++ [EvConstruct [("lookback_months", SInt 3)]])%list).
Proof.
  intros B L F C K. enter_scan. rewrite B. step_monad. rewrite L, F, C, K.
  now tidy_trace.
Qed.

(** Lines 96-97. *)
Lemma scan_class_analyze_user st1 tr1 scanner :
  is_empty (strip (username req)) = false ->
  _load_scanner_once w st = (Return tt, st1, tr1) ->
  is_not_none (_analyze_fn st1) = false ->
  is_not_none (_ScannerCls st1) = true ->
  py_call (_ScannerCls st1) [] [("lookback_months", SInt 3)] = Return scanner ->
  hasattr scanner "analyze_user" = true ->
  exists meth,
    py_getattr scanner "analyze_user" = Some meth /\
    scan w req st
    = (match py_call meth [SStr (strip (username req))] [] with
       | Return metrics => _to_json metrics
       | Raise e => Raise (HTTPException 500 ("scanner failed: " ++ exc_str w e))
       end,
       st1,
       (tr1 ++ [EvConstruct [("lookback_months", SInt 3)];
                EvMethod "analyze_user" (strip (username req))])%list).
Proof.
  intros B L F C K H.
  assert (G := H). unfold hasattr in G.
  destruct (py_getattr scanner "analyze_user") as [meth|] eqn:E; [|discriminate].
  exists meth. split; [reflexivity|].
  enter_scan. rewrite B. step_monad. rewrite L, F, C, K, H. step_monad.
  rewrite E.
  destruct (py_call meth [SStr (strip (username req))] []); now tidy_trace.
Qed.

(** Lines 98-99. *)
Lemma scan_class_analyze_player st1 tr1 scanner :
  is_empty (strip (username req)) = false ->
  _load_scanner_once w st = (Return tt, st1, tr1) ->
  is_not_none (_analyze_fn st1) = false ->
  is_not_none (_ScannerCls st1) = true ->
  py_call (_ScannerCls st1) [] [("lookback_months", SInt 3)] = Return scanner ->
  hasattr scanner "analyze_user" = false ->
  hasattr scanner "analyze_player" = true ->
  exists meth,
    py_getattr scanner "analyze_player" = Some meth /\
    scan w req st
    = (match py_call meth [SStr (strip (username req))] [] with
       | Return metrics => _to_json metrics
       | Raise e => Raise (HTTPException 500 ("scanner failed: " ++ exc_str w e))
       end,
       st1,
       (tr1 ++ [EvConstruct [("lookback_months", SInt 3)];
                EvMethod "analyze_player" (strip (username req))])%list).
Proof.
  intros B L F C K H1 H2.
  assert (G := H2). unfold hasattr in G.
  destruct (py_getattr scanner "analyze_player") as [meth|] eqn:E; [|discriminate].
  exists meth. split; [reflexivity|].
  enter_scan. rewrite B. step_monad. rewrite L, F, C, K, H1, H2. step_monad.
  rewrite E.
  destruct (py_call meth [SStr (strip (username req))] []); now tidy_trace.
Qed.

(** Lines 100-103. *)
Lemma scan_class_lacks_methods st1 tr1 scanner :
  is_empty (strip (username req)) = false ->
  _load_scanner_once w st = (Return tt, st1, tr1) ->
  is_not_none (_analyze_fn st1) = false ->
  is_not_none (_ScannerCls st1) = true ->
  py_call (_ScannerCls st1) [] [("lookback_months", SInt 3)] = Return scanner ->
  hasattr scanner "analyze_user" = false ->
  hasattr scanner "analyze_player" = false ->
  scan w req st
  = (Raise (HTTPException 500
              ("scanner failed: " ++
               exc_str w (HTTPException 500
                            "SusScanner lacks analyze_user/analyze_player"))),
     st1, (tr1 ++ [EvConstruct [("lookback_months", SInt 3)]])%list).
Proof.
  intros B L F C K H1 H2.
  enter_scan. rewrite B. step_monad. rewrite L, F, C, K, H1, H2.
  now tidy_trace.
Qed.

(** Lines 106-111. *)
Lemma scan_no_entrypoints st1 tr1 :
  is_empty (strip (username req)) = false ->
  _load_scanner_once w st = (Return tt, st1, tr1) ->
  is_not_none (_analyze_fn st1) = false ->
  is_not_none (_ScannerCls st1) = false ->
  scan w req st = (Raise (HTTPException 500 no_entrypoints_detail), st1, tr1).
Proof.
  intros B L F C. enter_scan. rewrite B. step_monad. rewrite L, F, C.
  now tidy_trace.
Qed.

End ScanPaths.

(** ** Resolution across requests *)

Section Lifecycle.
Import PyStr Py Gateway.

(** Every request leaves the globals as its resolution step left them, and
    after that step it loads no module. *)
Lemma scan_after_load (w : World) (req : ScanRequest) (st : State) rl st1 tr1 :
  is_empty (strip (username req)) = false ->
  _load_scanner_once w st = (rl, st1, tr1) ->
  exists r tr2,
    scan w req st = (r, st1, (tr1 ++ tr2)%list) /\ no_import tr2 = true.
Proof.
  intros B L. destruct rl as [[]|e].
  - destruct (is_not_none (_analyze_fn st1)) eqn:F.
    { eexists _, _. split; [now apply scan_function_style|reflexivity]. }
    destruct (is_not_none (_ScannerCls st1)) eqn:C.
    2:{ eexists _, []. rewrite app_nil_r.
        split; [now apply scan_no_entrypoints|reflexivity]. }
    destruct (py_call (_ScannerCls st1) [] [("lookback_months", SInt 3)])
      as [scanner|e] eqn:K.
    2:{ eexists _, _. split; [eapply scan_class_constructor_fails; eassumption|reflexivity]. }
    destruct (hasattr scanner "analyze_user") eqn:H1.
    { destruct (scan_class_analyze_user w req st st1 tr1 scanner B L F C K H1)
        as (meth & _ & E).
      eexists _, _. split; [exact E|reflexivity]. }
    destruct (hasattr scanner "analyze_player") eqn:H2.
    { destruct (scan_class_analyze_player w req st st1 tr1 scanner B L F C K H1 H2)
        as (meth & _ & E).
      eexists _, _. split; [exact E|reflexivity]. }
    eexists _, _. split; [eapply scan_class_lacks_methods; eassumption|reflexivity].
  - eexists _, []. rewrite app_nil_r.
    split; [eapply scan_resolution_failure; eassumption|reflexivity].
Qed.

(** Once resolution has completed, a request neither changes the globals
    nor loads a module. *)
Lemma scan_when_loaded (w : World) (req : ScanRequest) (st : State) :
  _loaded st = true ->
  snd (fst (scan w req st)) = st /\ no_import (snd (scan w req st)) = true.
Proof.
  intros L.
  destruct (is_empty (strip (username req))) eqn:B.
  - rewrite scan_blank by exact B. now split.
  - destruct (scan_after_load w req st _ _ _ B (load_when_loaded w st L))
      as (r & tr2 & E & N).
    rewrite E. now split.
Qed.

Lemma tried_all_when_none_loads (w : World) (names : list string) :
  forall last e, first_success w names last = Raise e ->
                 tried w names = names.
Proof.
  induction names as [|n rest IH]; intros last e; simpl; [reflexivity|].
  destruct (import_module w n); [discriminate|].
  intros H. f_equal. eapply IH, H.
Qed.

End Lifecycle.

(** * The claims *)

Section Claims.
Import PyStr Py Gateway.

(** C1 (as amended).  Module resolution completes at most once per process.
    Once resolution has completed, the resolution state (function handle,
    class handle, or neither) stays what it is over any further sequence of
    scan requests, and none of them loads a module.  A resolution failure is
    not cached: it leaves resolution not completed, and while resolution has
    not completed every scan request with a non-blank username tries the
    candidates again from the first one.  Such a request ends in one of
    three ways: no candidate loads, and it ends in the 500 import error with
    the state left as it was; a candidate loads and its inspection goes
    through, and the finding is recorded and resolution completed; a
    candidate loads but taking the truth value of its analyze_user raises,
    and it ends in the 500 import error with resolution still not
    completed and the function handle untouched (the class handle has
    been assigned by then; it is not used before a later resolution
    completes and assigns it again). *)
Theorem resolution_cached_once_it_succeeds (st : State) :
  (_loaded st = true ->
   forall reqs,
     Forall (fun out => snd (fst out) = st /\ no_import (snd out) = true)
            (serve reqs st)) /\
  (_loaded st = false ->
   forall w req,
     is_empty (strip (username req)) = false ->
     match first_success w candidates None with
     | Raise e =>
         scan w req st
         = (Raise (HTTPException 500
                     ("failed to import scanner module: " ++ exc_str w e)),
            st, map EvImport candidates)
     | Return m =>
         match py_or (getattr_default m "analyze_user" VNone)
                     (getattr_default m "analyze_player" VNone) with
         | Return fn =>
             exists r tr2,
               scan w req st
               = (r,
                  {| _ScannerCls := getattr_default m "SusScanner" VNone;
                     _analyze_fn := fn;
                     _loaded := true |},
                  (map EvImport (tried w candidates) ++ tr2)%list)
               /\ no_import tr2 = true
         | Raise e =>
             scan w req st
             = (Raise (HTTPException 500
                         ("failed to import scanner module: " ++ exc_str w e)),
                {| _ScannerCls := getattr_default m "SusScanner" VNone;
                   _analyze_fn := _analyze_fn st;
                   _loaded := false |},
                map EvImport (tried w candidates))
         end
     end) /\
  (forall w, exists more, tried w candidates = "scanner" :: more).
Proof.
  split; [|split].
  - intros L reqs. induction reqs as [|[w req] reqs IH]; simpl; [constructor|].
    destruct (scan_when_loaded w req st L) as [S N].
    destruct (scan w req st) as [[r st'] tr]. simpl in S, N. subst st'.
    constructor; [now split | exact IH].
  - intros L w req B.
    pose proof (load_when_not_loaded w st L) as E.
    destruct (first_success w candidates None) as [m|e] eqn:F.
    + destruct (py_or _ _) as [fn|e].
      * destruct (scan_after_load w req st _ _ _ B E) as (r & tr2 & S & N).
        now exists r, tr2.
      * now apply scan_resolution_failure.
    + rewrite (tried_all_when_none_loads w candidates None e F) in E.
      now apply scan_resolution_failure.
  - intros w. simpl. now eexists.
Qed.

(** C2 (as amended).  For every scan request whose username is a string that
    trims to the empty string (the empty string and all-whitespace values
    included), the scan operation raises the 400 error "username is
    required", leaves the resolution state unchanged and attempts no module
    load.  A body without the username field is not a scan request: it is
    turned away by request validation before the scan operation runs, so it
    gets no 400 "username is required" answer; the resolution state is
    unchanged there too. *)
Theorem blank_username_rejected (w : World) (st : State) (s : string) :
  strip s = "" ->
  scan w (mkScanRequest s) st
  = (Raise (HTTPException 400 "username is required"), st, [])
  /\ post_scan w (Some s) st
     = (Handled (Raise (HTTPException 400 "username is required")), st, [])
  /\ post_scan w None st = (Unprocessable, st, []).
Proof.
  intros B.
  assert (S : scan w (mkScanRequest s) st
              = (Raise (HTTPException 400 "username is required"), st, [])).
  { apply scan_blank. simpl. now rewrite B. }
  split; [exact S|]. split; [|reflexivity].
  unfold post_scan. simpl. now rewrite S.
Qed.


(** C3.  For a scan request with a non-empty trimmed username, when
    resolution produced both a function-style and a class-style entrypoint,
    the function-style entrypoint is called with the trimmed username, its
    outcome decides the response, and the class-style entrypoint is neither
    constructed nor called: the only call after the resolution step is the
    function call, and once resolution has completed the response and the
    trace are the same whatever the class handle is. *)
Theorem function_style_preferred (w : World) (req : ScanRequest)
    (st st1 : State) (tr1 : list Event) :
  is_empty (strip (username req)) = false ->
  _load_scanner_once w st = (Return tt, st1, tr1) ->
  is_not_none (_analyze_fn st1) = true ->
  is_not_none (_ScannerCls st1) = true ->
  let u := strip (username req) in
  let response :=
    match py_call (_analyze_fn st1) [SStr u] [] with
    | Return metrics => _to_json metrics
    | Raise e => Raise (HTTPException 500 ("analyze function failed: " ++ exc_str w e))
    end in
  scan w req st = (response, st1, (tr1 ++ [EvAnalyzeFn u])%list)
  /\ no_class_use (tr1 ++ [EvAnalyzeFn u]) = true
  /\ forall other,
       let st2 := {| _ScannerCls := other; _analyze_fn := _analyze_fn st1;
                     _loaded := true |} in
       scan w req st2 = (response, st2, [EvAnalyzeFn u]).
Proof.
  intros B L F C u response. split; [|split].
  - now apply scan_function_style.
  - rewrite no_class_use_app, (load_only_imports w st _ _ _ L). reflexivity.
  - intros other st2.
    apply (scan_function_style w req st2 st2 []); try assumption.
    now apply load_when_loaded.
Qed.

Lemma not_in_imports (tr : list Event) (name v : string) :
  no_class_use tr = true -> ~ In (EvMethod name v) tr.
Proof.
  intros N I. unfold no_class_use in N.
  rewrite forallb_forall in N. specialize (N _ I). discriminate N.
Qed.

(** C6.  When only a class-style entrypoint was resolved, the scan operation
    calls it with the single keyword argument lookback_months=3; when the
    instance it gets exposes both analyze_user and analyze_player, the
    method called (with the trimmed username) is analyze_user, its outcome
    decides the response, and analyze_player is never called. *)
Theorem class_style_prefers_analyze_user (w : World) (req : ScanRequest)
    (st st1 : State) (tr1 : list Event) :
  is_empty (strip (username req)) = false ->
  _load_scanner_once w st = (Return tt, st1, tr1) ->
  is_not_none (_analyze_fn st1) = false ->
  is_not_none (_ScannerCls st1) = true ->
  let u := strip (username req) in
  let kwargs := [("lookback_months", SInt 3)] in
  (exists r tr2,
     scan w req st = (r, st1, (tr1 ++ EvConstruct kwargs :: tr2)%list))
  /\ forall scanner,
       py_call (_ScannerCls st1) [] kwargs = Return scanner ->
       hasattr scanner "analyze_user" = true ->
       hasattr scanner "analyze_player" = true ->
       exists meth,
         py_getattr scanner "analyze_user" = Some meth /\
         scan w req st
         = (match py_call meth [SStr u] [] with
            | Return metrics => _to_json metrics
            | Raise e => Raise (HTTPException 500 ("scanner failed: " ++ exc_str w e))
            end,
            st1, (tr1 ++ [EvConstruct kwargs; EvMethod "analyze_user" u])%list)
         /\ forall v, ~ In (EvMethod "analyze_player" v)
                          (tr1 ++ [EvConstruct kwargs; EvMethod "analyze_user" u]).
Proof.
  intros B L F C u kwargs. split.
  - destruct (py_call (_ScannerCls st1) [] kwargs) as [scanner|e] eqn:K.
    2:{ eexists _, []. eapply scan_class_constructor_fails; eassumption. }
    destruct (hasattr scanner "analyze_user") eqn:H1.
    { destruct (scan_class_analyze_user w req st st1 tr1 scanner B L F C K H1)
        as (meth & _ & E).
      eexists _, _. exact E. }
    destruct (hasattr scanner "analyze_player") eqn:H2.
    { destruct (scan_class_analyze_player w req st st1 tr1 scanner B L F C K H1 H2)
        as (meth & _ & E).
      eexists _, _. exact E. }
    eexists _, []. eapply scan_class_lacks_methods; eassumption.
  - intros scanner K H1 _.
    destruct (scan_class_analyze_user w req st st1 tr1 scanner B L F C K H1)
      as (meth & G & E).
    exists meth. split; [exact G|]. split; [exact E|].
    intros v I. apply in_app_or in I. destruct I as [I|I].
    + exact (not_in_imports tr1 _ v (load_only_imports w st _ _ _ L) I).
    + simpl in I. destruct I as [I|[I|[]]]; discriminate I.
Qed.

Lemma contains_skip (needle pre hay : string) :
  contains needle hay = true -> contains needle (pre ++ hay) = true.
Proof.
  intros H. induction pre as [|c pre IH]; [exact H|].
  change (String c pre ++ hay) with (String c (pre ++ hay)).
  rewrite contains_unfold, IH. apply orb_true_r.
Qed.

Lemma contains_self (text : string) : contains text text = true.
Proof.
  rewrite contains_unfold.
  replace (String.prefix text text) with true; [reflexivity|].
  symmetry. induction text as [|c t IH]; simpl; [reflexivity|].
  destruct (ascii_dec c c); [exact IH | congruence].
Qed.

(** X17.  The resolver tries "scanner", then "services.scanner", then
    "api.scanner"; the first one that loads is the result and no later one
    is tried.  When all three fail, what is raised depends on the truth
    value of the last failure: the last failure itself when it is true (as
    for every exception whose class does not define its own truth value),
    and ImportError "no module names provided" when it is false.  A scan
    request (non-blank username, resolution not yet completed) then ends in
    a 500 error whose detail is "failed to import scanner module: " followed
    by the text of what was raised, so with a last failure whose truth
    value is true the detail contains the text of that failure; nothing is
    recorded. *)
Theorem import_first_candidate_order (w : World) (st : State) :
  candidates = ["scanner"; "services.scanner"; "api.scanner"]
  /\ _import_first w candidates st
     = match import_module w "scanner" with
       | Return m => (Return m, st, [EvImport "scanner"])
       | Raise _ =>
           match import_module w "services.scanner" with
           | Return m =>
               (Return m, st, [EvImport "scanner"; EvImport "services.scanner"])
           | Raise _ =>
               match import_module w "api.scanner" with
               | Return m =>
                   (Return m, st,
                    [EvImport "scanner"; EvImport "services.scanner";
                     EvImport "api.scanner"])
               | Raise e =>
                   (Raise (if exc_truthy e then e
                           else Exc "ImportError" "no module names provided"),
                    st,
                    [EvImport "scanner"; EvImport "services.scanner";
                     EvImport "api.scanner"])
               end
           end
       end
  /\ forall req e1 e2 e3,
       _loaded st = false ->
       is_empty (strip (username req)) = false ->
       import_module w "scanner" = Raise e1 ->
       import_module w "services.scanner" = Raise e2 ->
       import_module w "api.scanner" = Raise e3 ->
       let detail :=
         "failed to import scanner module: "
         ++ (if exc_truthy e3 then exc_str w e3 else "no module names provided") in
       scan w req st
       = (Raise (HTTPException 500 detail), st,
          [EvImport "scanner"; EvImport "services.scanner"; EvImport "api.scanner"])
       /\ (exc_truthy e3 = true -> contains (exc_str w e3) detail = true).
Proof.
  split; [reflexivity|]. split.
  - unfold _import_first. rewrite import_loop_refines. simpl.
    destruct (import_module w "scanner"); [reflexivity|].
    destruct (import_module w "services.scanner"); [reflexivity|].
    destruct (import_module w "api.scanner") as [m|e3]; [reflexivity|].
    now destruct (exc_truthy e3).
  - intros req e1 e2 e3 L B I1 I2 I3 detail. split.
    + unfold detail.
      replace (if exc_truthy e3 then exc_str w e3 else "no module names provided")
        with (exc_str w (if exc_truthy e3 then e3
                         else Exc "ImportError" "no module names provided"))
        by now destruct (exc_truthy e3).
      apply scan_resolution_failure; [exact B|].
      rewrite load_when_not_loaded by exact L.
      simpl. rewrite I1, I2, I3. now destruct (exc_truthy e3).
    + intros T. unfold detail. rewrite T. apply contains_skip, contains_self.
Qed.

(** C9.  When a module has just been loaded, the function handle recorded is
    the module's analyze_user attribute whenever that attribute is truthy
    (so also when the module offers both function names); the
    analyze_player attribute (or None when there is none) is recorded only
    when the module has no analyze_user attribute or a falsy one.  In each
    of these cases resolution completes. *)
Theorem function_names_prefer_analyze_user (w : World) (st st0 : State)
    (m : PyVal) (tr : list Event) :
  _loaded st = false ->
  _import_first w candidates st = (Return m, st0, tr) ->
  (forall f, py_getattr m "analyze_user" = Some f -> truthy f = Return true ->
     exists st1,
       _load_scanner_once w st = (Return tt, st1, tr)
       /\ _loaded st1 = true /\ _analyze_fn st1 = f)
  /\ (forall f g, py_getattr m "analyze_user" = Some f -> truthy f = Return true ->
                  py_getattr m "analyze_player" = Some g ->
        exists st1,
          _load_scanner_once w st = (Return tt, st1, tr)
          /\ _loaded st1 = true /\ _analyze_fn st1 = f)
  /\ (py_getattr m "analyze_user" = None ->
      exists st1,
        _load_scanner_once w st = (Return tt, st1, tr)
        /\ _loaded st1 = true
        /\ _analyze_fn st1 = getattr_default m "analyze_player" VNone)
  /\ (forall f, py_getattr m "analyze_user" = Some f -> truthy f = Return false ->
        exists st1,
          _load_scanner_once w st = (Return tt, st1, tr)
          /\ _loaded st1 = true
          /\ _analyze_fn st1 = getattr_default m "analyze_player" VNone).
Proof.
  intros L I.
  unfold _import_first in I. rewrite import_loop_refines in I.
  assert (F : first_success w candidates None = Return m) by congruence.
  assert (T : map EvImport (tried w candidates) = tr) by congruence.
  clear I.
  pose proof (load_when_not_loaded w st L) as E. rewrite F, T in E.
  unfold py_or, getattr_default in E.
  split; [|split; [|split]].
  - intros f G Tf. rewrite G, Tf in E. eexists. split; [exact E|]. now split.
  - intros f g G Tf _. rewrite G, Tf in E. eexists. split; [exact E|]. now split.
  - intros G. rewrite G in E. simpl in E. eexists. split; [exact E|]. now split.
  - intros f G Tf. rewrite G, Tf in E. eexists. split; [exact E|]. now split.
Qed.

(** C10.  When only a class-style entrypoint was resolved and the instance
    exposes neither analyze_user nor analyze_player, the missing-methods
    exception raised inside the invocation block is caught there and
    wrapped: the response is a 500 error whose detail is "scanner failed: "
    followed by the text of that exception, which is neither the bare
    "SusScanner lacks analyze_user/analyze_player" nor the no-entrypoints
    message; where the text of the framework's exception holds its detail,
    the response detail contains "SusScanner lacks
    analyze_user/analyze_player". *)
Theorem missing_methods_error_is_rewrapped (w : World) (req : ScanRequest)
    (st st1 : State) (tr1 : list Event) (scanner : PyVal) :
  is_empty (strip (username req)) = false ->
  _load_scanner_once w st = (Return tt, st1, tr1) ->
  is_not_none (_analyze_fn st1) = false ->
  is_not_none (_ScannerCls st1) = true ->
  py_call (_ScannerCls st1) [] [("lookback_months", SInt 3)] = Return scanner ->
  hasattr scanner "analyze_user" = false ->
  hasattr scanner "analyze_player" = false ->
  let lacks := "SusScanner lacks analyze_user/analyze_player" in
  let detail := "scanner failed: " ++ exc_str w (HTTPException 500 lacks) in
  scan w req st
  = (Raise (HTTPException 500 detail), st1,
     (tr1 ++ [EvConstruct [("lookback_months", SInt 3)]])%list)
  /\ detail <> lacks
  /\ detail <> no_entrypoints_detail
  /\ (contains lacks (http_exception_str w 500 lacks) = true ->
      contains lacks detail = true).
Proof.
  intros B L F C K H1 H2 lacks detail. split; [|split; [|split]].
  - eapply scan_class_lacks_methods; eassumption.
  - unfold detail, lacks. simpl. discriminate.
  - unfold detail, no_entrypoints_detail. simpl. discriminate.
  - intros H. unfold detail. simpl exc_str. now apply contains_skip.
Qed.

Lemma hasattr_dict (obj : PyVal) :
  hasattr obj "__dict__" = match py_dict obj with Some _ => true | None => false end.
Proof. unfold hasattr, py_getattr. simpl. now destruct (py_dict obj). Qed.

Lemma py_vars_some (obj : PyVal) (d : list (string * PyVal)) :
  py_vars obj = Some d <-> py_dict obj = Some d /\ odd_key obj = None.
Proof.
  unfold py_vars. destruct (odd_key obj); split;
    try discriminate; try (intros [_ H]; discriminate H); easy.
Qed.

(** The comprehension keeps, in order, exactly the attributes whose names do
    not start with an underscore. *)
Lemma public_items_spec (d : list (string * PyVal)) (k : string) (v : PyVal) :
  In (k, v) (public_items d) <-> In (k, v) d /\ startswith k "_" = false.
Proof.
  unfold public_items. rewrite filter_In. simpl.
  now destruct (startswith k "_").
Qed.

(** C4.  The normalization function works by a fixed order of preference:
    a plain mapping comes back unchanged; any other value with a model_dump
    attribute gives what calling model_dump() gives, whether or not it also
    has attributes of its own; any other value with attributes of its own
    (a __dict__) gives the mapping of those whose names do not start with an
    underscore, in order; any other value gives the single-key mapping from
    "result" to its text. *)
Theorem to_json_order_of_preference (obj : PyVal) :
  (isinstance_dict obj = true -> _to_json obj = Return obj)
  /\ (isinstance_dict obj = false ->
      forall dump, py_getattr obj "model_dump" = Some dump ->
                   _to_json obj = py_call dump [] [])
  /\ (isinstance_dict obj = false ->
      hasattr obj "model_dump" = false ->
      forall d, py_vars obj = Some d ->
        hasattr obj "__dict__" = true
        /\ _to_json obj
           = Return (VDict (filter (fun kv => negb (startswith (fst kv) "_")) d))
        /\ forall k v,
             In (k, v) (filter (fun kv => negb (startswith (fst kv) "_")) d)
             <-> In (k, v) d /\ startswith k "_" = false)
  /\ (isinstance_dict obj = false ->
      hasattr obj "model_dump" = false ->
      hasattr obj "__dict__" = false ->
      _to_json obj
      = match py_str obj with
        | Return text => Return (VDict [("result", VStr text)])
        | Raise e => Raise e
        end).
Proof.
  unfold _to_json, hasattr at 1 3.
  split; [|split; [|split]].
  - now intros ->.
  - intros -> dump ->. reflexivity.
  - intros -> H d V. apply py_vars_some in V. destruct V as [V O].
    rewrite hasattr_dict, V. unfold public_dict. rewrite O.
    destruct (py_getattr obj "model_dump"); [discriminate|].
    split; [reflexivity|]. split; [reflexivity|].
    intros k v. apply public_items_spec.
  - intros -> H V. rewrite hasattr_dict in V.
    destruct (py_getattr obj "model_dump"); [discriminate|].
    now destruct (py_dict obj).
Qed.

(** C5 (as amended).  The normalization function returns a key-value
    mapping and does not throw for every input value on which the
    operations it relies on go through: a plain mapping; a value with a
    model_dump attribute whose call returns a mapping; a value without
    model_dump that has attributes of its own, all under string names; a
    value with neither whose str() returns (as for None, booleans, strings
    and integers within the interpreter's digit limit).  It is not total,
    having no error handling of its own: what model_dump() raises, what the
    name test raises on a key that is not a string, and what str() raises
    all come out of it as raised, and what model_dump() returns is returned
    as it is, mapping or not. *)
Theorem to_json_returns_mapping_when_its_calls_succeed (obj : PyVal) :
  (isinstance_dict obj = true -> _to_json obj = Return obj)
  /\ (isinstance_dict obj = false ->
      forall dump v,
        py_getattr obj "model_dump" = Some dump ->
        py_call dump [] [] = Return v ->
        _to_json obj = Return v)
  /\ (isinstance_dict obj = false ->
      hasattr obj "model_dump" = false ->
      hasattr obj "__dict__" = true ->
      odd_key obj = None ->
      exists items, _to_json obj = Return (VDict items))
  /\ (isinstance_dict obj = false ->
      hasattr obj "model_dump" = false ->
      hasattr obj "__dict__" = false ->
      forall text,
        py_str obj = Return text ->
        _to_json obj = Return (VDict [("result", VStr text)]))
  /\ (isinstance_dict obj = false ->
      forall dump e,
        py_getattr obj "model_dump" = Some dump ->
        py_call dump [] [] = Raise e ->
        _to_json obj = Raise e)
  /\ (isinstance_dict obj = false ->
      hasattr obj "model_dump" = false ->
      hasattr obj "__dict__" = true ->
      forall e, odd_key obj = Some e -> _to_json obj = Raise e)
  /\ (isinstance_dict obj = false ->
      hasattr obj "model_dump" = false ->
      hasattr obj "__dict__" = false ->
      forall e, py_str obj = Raise e -> _to_json obj = Raise e)
  /\ _to_json VNone = Return (VDict [("result", VStr "None")])
  /\ (forall b, _to_json (VBool b) = Return (VDict [("result", VStr (str_of_bool b))]))
  /\ (forall s, _to_json (VStr s) = Return (VDict [("result", VStr s)]))
  /\ (forall z, Nat.leb (int_digits z) int_max_str_digits = true ->
                _to_json (VInt z) = Return (VDict [("result", VStr (str_of_Z z))]))
  /\ (forall z, Nat.leb (int_digits z) int_max_str_digits = false ->
                exists e, _to_json (VInt z) = Raise e).
Proof.
  unfold _to_json.
  split; [now intros ->|].
  split; [intros -> dump v -> C; exact C|].
  split.
  { intros -> H D O. rewrite hasattr_dict in D. unfold hasattr in H.
    destruct (py_getattr obj "model_dump"); [discriminate|].
    destruct (py_dict obj) as [d|]; [|discriminate].
    unfold public_dict. rewrite O. now eexists. }
  split.
  { intros -> H D text S. rewrite hasattr_dict in D. unfold hasattr in H.
    destruct (py_getattr obj "model_dump"); [discriminate|].
    destruct (py_dict obj); [discriminate|]. now rewrite S. }
  split; [intros -> dump e -> C; exact C|].
  split.
  { intros -> H D e O. rewrite hasattr_dict in D. unfold hasattr in H.
    destruct (py_getattr obj "model_dump"); [discriminate|].
    destruct (py_dict obj) as [d|]; [|discriminate].
    unfold public_dict. now rewrite O. }
  split.
  { intros -> H D e S. rewrite hasattr_dict in D. unfold hasattr in H.
    destruct (py_getattr obj "model_dump"); [discriminate|].
    destruct (py_dict obj); [discriminate|]. now rewrite S. }
  split; [reflexivity|]. split; [reflexivity|]. split; [reflexivity|].
  split.
  - intros z H. simpl. unfold int_text. now rewrite H.
  - intros z H. simpl. unfold int_text. rewrite H. now eexists.
Qed.

End Claims.

(** ** The theorems at concrete inputs *)

Section ConcreteRuns.
Import PyStr Py Gateway Examples.

Lemma resolution_cached_once_it_succeeds_witness :
  (_loaded resolved = true /\
   Forall (fun out => snd (fst out) = resolved /\ no_import (snd out) = true)
          (serve [(no_scanner, magnus); (no_scanner, magnus)] resolved)) /\
  (_loaded initial = false /\
   is_empty (strip (username magnus)) = false /\
   scan no_scanner magnus initial
   = (Raise (HTTPException 500
               "failed to import scanner module: No module named 'api.scanner'"),
      initial,
      [EvImport "scanner"; EvImport "services.scanner"; EvImport "api.scanner"])) /\
  (scan (services_scanner moody_module) magnus initial
   = (Raise (HTTPException 500
               "failed to import scanner module: scanner not configured"),
      {| _ScannerCls :=
           scanner_class [("analyze_user", fn "SusScanner.analyze_user")];
         _analyze_fn := VNone;
         _loaded := false |},
      [EvImport "scanner"; EvImport "services.scanner"])).
Proof.
  split; [|split].
  - split; [reflexivity|].
    exact (proj1 (resolution_cached_once_it_succeeds resolved) eq_refl
                 [(no_scanner, magnus); (no_scanner, magnus)]).
  - split; [reflexivity|]. split; [reflexivity|].
    exact (proj1 (proj2 (resolution_cached_once_it_succeeds initial)) eq_refl
                 no_scanner magnus eq_refl).
  - exact (proj1 (proj2 (resolution_cached_once_it_succeeds initial)) eq_refl
                 (services_scanner moody_module) magnus eq_refl).
Defined.

Lemma allow_origins_from_env_witness :
  Cors.allow_origins (Some " https://a.example , ,http://localhost:5173  ,")
  = ["https://a.example"; "http://localhost:5173"]
  /\ Cors.allow_origins (Some " , ,") = Cors.DEFAULT_ORIGINS
  /\ Cors.allow_origins None = Cors.DEFAULT_ORIGINS.
Proof.
  split; [|split].
  - exact (proj2 (proj2 (proj2 (proj2 (proj2 (proj2
             (allow_origins_from_env
                (Some " https://a.example , ,http://localhost:5173  ,")))))))).
  - exact (proj2 (proj2 (proj2 (proj2 (proj2 (proj2
             (allow_origins_from_env (Some " , ,")))))))).
  - exact (proj2 (proj2 (proj2 (proj2 (proj2 (proj2
             (allow_origins_from_env None))))))).
Defined.

Lemma blank_username_rejected_witness :
  strip "   " = "" /\
  scan no_scanner (mkScanRequest "   ") initial
  = (Raise (HTTPException 400 "username is required"), initial, [])
  /\ post_scan no_scanner (Some "   ") initial
     = (Handled (Raise (HTTPException 400 "username is required")), initial, [])
  /\ post_scan no_scanner None initial = (Unprocessable, initial, []).
Proof.
  split; [reflexivity|].
  apply (blank_username_rejected no_scanner initial "   ").
  reflexivity.
Defined.

Lemma function_style_preferred_witness :
  is_empty (strip (username magnus)) = false /\
  _load_scanner_once (services_scanner both_styles) initial
  = (Return tt, after_load both_styles,
     [EvImport "scanner"; EvImport "services.scanner"]) /\
  is_not_none (_analyze_fn (after_load both_styles)) = true /\
  is_not_none (_ScannerCls (after_load both_styles)) = true /\
  scan (services_scanner both_styles) magnus initial
  = (Return (VDict [("via", VStr "analyze_user")]),
     after_load both_styles,
     [EvImport "scanner"; EvImport "services.scanner"; EvAnalyzeFn "magnus"]).
Proof.
  do 4 (split; [reflexivity|]).
  exact (proj1 (function_style_preferred
                  (services_scanner both_styles) magnus initial
                  (after_load both_styles)
                  [EvImport "scanner"; EvImport "services.scanner"]
                  eq_refl eq_refl eq_refl eq_refl)).
Defined.

Lemma class_style_prefers_analyze_user_witness :
  is_empty (strip (username magnus)) = false /\
  _load_scanner_once (services_scanner class_with_both_methods) initial
  = (Return tt, after_load class_with_both_methods,
     [EvImport "scanner"; EvImport "services.scanner"]) /\
  is_not_none (_analyze_fn (after_load class_with_both_methods)) = false /\
  is_not_none (_ScannerCls (after_load class_with_both_methods)) = true /\
  exists meth,
    py_getattr (instance [("analyze_player", fn "SusScanner.analyze_player");
                          ("analyze_user", fn "SusScanner.analyze_user")])
               "analyze_user" = Some meth /\
    scan (services_scanner class_with_both_methods) magnus initial
    = (match py_call meth [SStr "magnus"] [] with
       | Return metrics => _to_json metrics
       | Raise e =>
           Raise (HTTPException 500
                    ("scanner failed: " ++
                     exc_str (services_scanner class_with_both_methods) e))
       end,
       after_load class_with_both_methods,
       [EvImport "scanner"; EvImport "services.scanner";
        EvConstruct [("lookback_months", SInt 3)];
        EvMethod "analyze_user" "magnus"]).
Proof.
  do 4 (split; [reflexivity|]).
  destruct (proj2 (class_style_prefers_analyze_user
                     (services_scanner class_with_both_methods) magnus initial
                     (after_load class_with_both_methods)
                     [EvImport "scanner"; EvImport "services.scanner"]
                     eq_refl eq_refl eq_refl eq_refl)
                  (instance [("analyze_player", fn "SusScanner.analyze_player");
                             ("analyze_user", fn "SusScanner.analyze_user")])
                  eq_refl eq_refl eq_refl)
    as (meth & G & E & _).
  exists meth. split; [exact G | exact E].
Defined.

Lemma import_first_candidate_order_witness :
  _loaded initial = false /\
  is_empty (strip (username magnus)) = false /\
  import_module no_scanner "scanner" = Raise (not_found "scanner") /\
  import_module no_scanner "services.scanner" = Raise (not_found "services.scanner") /\
  import_module no_scanner "api.scanner" = Raise (not_found "api.scanner") /\
  scan no_scanner magnus initial
  = (Raise (HTTPException 500
              "failed to import scanner module: No module named 'api.scanner'"),
     initial,
     [EvImport "scanner"; EvImport "services.scanner"; EvImport "api.scanner"]) /\
  contains "No module named 'api.scanner'"
           "failed to import scanner module: No module named 'api.scanner'" = true.
Proof.
  do 5 (split; [reflexivity|]).
  destruct (proj2 (proj2 (import_first_candidate_order no_scanner initial))
                  magnus _ _ _ eq_refl eq_refl eq_refl eq_refl eq_refl)
    as [S C].
  split; [exact S | exact (C eq_refl)].
Defined.

Lemma function_names_prefer_analyze_user_witness :
  _loaded initial = false /\
  _import_first (services_scanner both_styles) candidates initial
  = (Return both_styles, initial,
     [EvImport "scanner"; EvImport "services.scanner"]) /\
  exists st1,
    _load_scanner_once (services_scanner both_styles) initial
    = (Return tt, st1, [EvImport "scanner"; EvImport "services.scanner"]) /\
    _analyze_fn st1 = fn "analyze_user".
Proof.
  do 2 (split; [reflexivity|]).
  destruct (proj1 (function_names_prefer_analyze_user
                     (services_scanner both_styles) initial initial both_styles
                     [EvImport "scanner"; EvImport "services.scanner"]
                     eq_refl eq_refl)
                  (fn "analyze_user") eq_refl eq_refl)
    as (st1 & E & _ & H).
  exists st1. split; [exact E | exact H].
Defined.

Lemma missing_methods_error_is_rewrapped_witness :
  is_empty (strip (username magnus)) = false /\
  _load_scanner_once (services_scanner class_without_methods) initial
  = (Return tt, after_load class_without_methods,
     [EvImport "scanner"; EvImport "services.scanner"]) /\
  is_not_none (_analyze_fn (after_load class_without_methods)) = false /\
  is_not_none (_ScannerCls (after_load class_without_methods)) = true /\
  py_call (_ScannerCls (after_load class_without_methods)) []
          [("lookback_months", SInt 3)] = Return (instance []) /\
  hasattr (instance []) "analyze_user" = false /\
  hasattr (instance []) "analyze_player" = false /\
  scan (services_scanner class_without_methods) magnus initial
  = (Raise (HTTPException 500
              "scanner failed: 500: SusScanner lacks analyze_user/analyze_player"),
     after_load class_without_methods,
     [EvImport "scanner"; EvImport "services.scanner";
      EvConstruct [("lookback_months", SInt 3)]]).
Proof.
  do 7 (split; [reflexivity|]).
  exact (proj1 (missing_methods_error_is_rewrapped
                  (services_scanner class_without_methods) magnus initial
                  (after_load class_without_methods)
                  [EvImport "scanner"; EvImport "services.scanner"]
                  (instance [])
                  eq_refl eq_refl eq_refl eq_refl eq_refl eq_refl eq_refl)).
Defined.

Lemma to_json_order_of_preference_witness :
  (isinstance_dict (VDict [("score", VInt 7)]) = true /\
   _to_json (VDict [("score", VInt 7)]) = Return (VDict [("score", VInt 7)])) /\
  (isinstance_dict model = false /\
   _to_json model = Return (VDict [("score", VInt 7)])) /\
  (isinstance_dict report = false /\ hasattr report "model_dump" = false /\
   _to_json report = Return (VDict [("score", VInt 7)])) /\
  (isinstance_dict (VInt 42) = false /\ hasattr (VInt 42) "model_dump" = false /\
   hasattr (VInt 42) "__dict__" = false /\
   _to_json (VInt 42) = Return (VDict [("result", VStr "42")])).
Proof.
  split; [|split; [|split]].
  - split; [reflexivity|].
    exact (proj1 (to_json_order_of_preference (VDict [("score", VInt 7)])) eq_refl).
  - split; [reflexivity|].
    exact (proj1 (proj2 (to_json_order_of_preference model)) eq_refl _ eq_refl).
  - split; [reflexivity|]. split; [reflexivity|].
    exact (proj1 (proj2 (proj1 (proj2 (proj2 (to_json_order_of_preference report)))
                               eq_refl eq_refl _ eq_refl))).
  - split; [reflexivity|]. split; [reflexivity|]. split; [reflexivity|].
    exact (proj2 (proj2 (proj2 (to_json_order_of_preference (VInt 42))))
                 eq_refl eq_refl eq_refl).
Defined.

Lemma to_json_returns_mapping_when_its_calls_succeed_witness :
  (isinstance_dict report = false /\ hasattr report "model_dump" = false /\
   hasattr report "__dict__" = true /\ odd_key report = None /\
   exists items, _to_json report = Return (VDict items)) /\
  (isinstance_dict failing_dump = false /\
   _to_json failing_dump = Raise (Exc "ValueError" "cannot serialize")) /\
  (isinstance_dict odd_report = false /\ hasattr odd_report "model_dump" = false /\
   hasattr odd_report "__dict__" = true /\
   _to_json odd_report
   = Raise (Exc "AttributeError" "'int' object has no attribute 'startswith'")) /\
  (Nat.leb (int_digits 42) int_max_str_digits = true /\
   _to_json (VInt 42) = Return (VDict [("result", VStr "42")])).
Proof.
  split; [|split; [|split]].
  - do 4 (split; [reflexivity|]).
    exact (proj1 (proj2 (proj2
                   (to_json_returns_mapping_when_its_calls_succeed report)))
                 eq_refl eq_refl eq_refl eq_refl).
  - split; [reflexivity|].
    exact (proj1 (proj2 (proj2 (proj2 (proj2
                   (to_json_returns_mapping_when_its_calls_succeed failing_dump)))))
                 eq_refl _ _ eq_refl eq_refl).
  - do 3 (split; [reflexivity|]).
    exact (proj1 (proj2 (proj2 (proj2 (proj2 (proj2
                   (to_json_returns_mapping_when_its_calls_succeed odd_report))))))
                 eq_refl eq_refl eq_refl _ eq_refl).
  - split; [reflexivity|].
    exact (proj1 (proj2 (proj2 (proj2 (proj2 (proj2 (proj2 (proj2 (proj2 (proj2
                   (proj2 (to_json_returns_mapping_when_its_calls_succeed VNone)))))))))))
                 42%Z eq_refl).
Defined.

End ConcreteRuns.

(** ** Sentences of the specification that the program does not satisfy *)

Section Refuted.
Import PyStr Py Gateway Examples.

(** C1 in the specification's wording (a second request after a failed
    resolution reuses a cached failure and loads nothing) does not hold:
    with no candidate importable, the first request ends in the import error
    and records nothing, and the second request runs the three module loads
    again. *)
Lemma failed_resolution_is_retried :
  serve [(no_scanner, magnus); (no_scanner, magnus)] initial
  = [ (Raise (HTTPException 500
                "failed to import scanner module: No module named 'api.scanner'"),
       initial,
       [EvImport "scanner"; EvImport "services.scanner"; EvImport "api.scanner"]);
      (Raise (HTTPException 500
                "failed to import scanner module: No module named 'api.scanner'"),
       initial,
       [EvImport "scanner"; EvImport "services.scanner"; EvImport "api.scanner"]) ]
  /\ ~ (forall w req1 req2 r1 st1 tr1 r2 st2 tr2,
          scan w req1 initial = (r1, st1, tr1) ->
          no_import tr1 = false ->
          scan w req2 st1 = (r2, st2, tr2) ->
          no_import tr2 = true).
Proof.
  split; [reflexivity|].
  intros H.
  specialize (H no_scanner magnus magnus _ _ _ _ _ _ eq_refl eq_refl eq_refl).
  discriminate H.
Qed.

(** C2 in the specification's wording does not hold for a missing username
    field: the request is turned away by validation and the 400 "username is
    required" error is not what comes back. *)
Lemma missing_username_is_not_a_400 :
  post_scan no_scanner None initial = (Unprocessable, initial, [])
  /\ ~ (forall w st b,
          match b with Some s => strip s | None => "" end = "" ->
          fst (fst (post_scan w b st))
          = Handled (Raise (HTTPException 400 "username is required"))).
Proof.
  split; [reflexivity|].
  intros H. specialize (H no_scanner initial None eq_refl).
  discriminate H.
Qed.

(** C7.  The resolver drops a last failure whose truth value is false: line
    48 asks [if last_err:] where it means to ask whether a failure was
    recorded.  With "scanner" and "services.scanner" missing and
    "api.scanner" failing with an exception whose class makes it falsy, the
    three candidates are tried in order, and then ImportError "no module
    names provided" is raised in place of the failure met; the 500 detail
    of the scan request does not contain the text of that failure. *)
Lemma falsy_last_failure_is_dropped :
  import_module falsy_last_failure "api.scanner"
  = Raise (FalsyExc "EmptyIndexError" "scanner index is empty")
  /\ _import_first falsy_last_failure candidates initial
     = (Raise (Exc "ImportError" "no module names provided"), initial,
        [EvImport "scanner"; EvImport "services.scanner"; EvImport "api.scanner"])
  /\ scan falsy_last_failure magnus initial
     = (Raise (HTTPException 500
                 "failed to import scanner module: no module names provided"),
        initial,
        [EvImport "scanner"; EvImport "services.scanner"; EvImport "api.scanner"])
  /\ contains "scanner index is empty"
              "failed to import scanner module: no module names provided"
     = false.
Proof. repeat split. Qed.

(** C5 in the specification's wording does not hold: a result object whose
    model_dump() raises makes the normalization function raise too, so it is
    not total. *)
Lemma to_json_is_not_total :
  _to_json failing_dump = Raise (Exc "ValueError" "cannot serialize")
  /\ ~ (forall obj, exists items, _to_json obj = Return (VDict items)).
Proof.
  split; [reflexivity|].
  intros H. destruct (H failing_dump) as [items E]. discriminate E.
Qed.


End Refuted.

(* ------------------------------------------------------------------------- *)
(** * Further properties of the configuration block *)

Section MoreCorsFacts.
Import PyStr Cors Config.

Lemma configured_entries_ok (env : Env) :
  Forall (fun o => is_empty o = false /\ lstrip o = o /\ rstrip o = o
                   /\ all_chars (fun c => negb (Ascii.eqb c ",")) o = true)
         (configured_origins env).
Proof.
  unfold configured_origins.
  apply Forall_forall. intros o Ho.
  apply in_map_iff in Ho. destruct Ho as (x & <- & Hx).
  apply filter_In in Hx. destruct Hx as [Hin Hx].
  split; [now destruct (is_empty (strip x))|].
  split; [apply lstrip_strip|]. split; [apply rstrip_strip|].
  apply all_chars_strip.
  pose proof (split_no_sep "," (origins_env env)) as N.
  rewrite Forall_forall in N. now apply N.
Qed.

Lemma default_entries_ok :
  Forall (fun o => is_empty o = false /\ lstrip o = o /\ rstrip o = o
                   /\ all_chars (fun c => negb (Ascii.eqb c ",")) o = true)
         DEFAULT_ORIGINS.
Proof. repeat constructor. Qed.

Lemma allow_origins_entries_ok (env : Env) :
  allow_origins env <> [] /\
  Forall (fun o => is_empty o = false /\ lstrip o = o /\ rstrip o = o
                   /\ all_chars (fun c => negb (Ascii.eqb c ",")) o = true)
         (allow_origins env).
Proof.
  unfold allow_origins. pose proof (configured_entries_ok env) as H.
  destruct (configured_origins env) as [|o l].
  - split; [discriminate | apply default_entries_ok].
  - split; [discriminate | exact H].
Qed.

Lemma keep_all_entries (origins : list string) :
  Forall (fun o => is_empty o = false /\ strip o = o) origins ->
  map strip (filter (fun o => negb (is_empty (strip o))) origins) = origins.
Proof.
  induction 1 as [|o l [Ho So] _ IH]; simpl; [reflexivity|].
  rewrite So, Ho. simpl. now rewrite So, IH.
Qed.

Lemma allow_origins_of_join (origins : list string) :
  origins <> [] ->
  Forall (fun o => is_empty o = false /\ strip o = o
                   /\ all_chars (fun c => negb (Ascii.eqb c ",")) o = true)
         origins ->
  allow_origins (Some (join "," origins)) = origins.
Proof.
  intros N H. unfold allow_origins, configured_origins. simpl origins_env.
  rewrite split_join; [| exact N | eapply Forall_impl; [|exact H]; now intros o (_ & _ & C)].
  rewrite keep_all_entries; [| eapply Forall_impl; [|exact H]; now intros o (E & S & _)].
  destruct origins; [congruence | reflexivity].
Qed.

(** X1.  Whatever [CORS_ORIGINS] holds, the allowed-origins list is never
    empty, and no entry of it is empty, starts or ends with whitespace, or
    holds a comma. *)
Theorem allow_origins_well_formed (env : Env) :
  allow_origins env <> [] /\
  Forall (fun o => is_empty o = false /\ lstrip o = o /\ rstrip o = o
                   /\ all_chars (fun c => negb (Ascii.eqb c ",")) o = true)
         (allow_origins env).
Proof. apply allow_origins_entries_ok. Qed.

(** X2.  Setting [CORS_ORIGINS] to a comma-joined list of origins gives
    exactly that list, in order and with repetitions kept, provided the list
    is not empty and each origin is non-empty, already trimmed and free of
    commas. *)
Theorem allow_origins_round_trip (origins : list string) :
  origins <> [] ->
  Forall (fun o => is_empty o = false /\ strip o = o
                   /\ all_chars (fun c => negb (Ascii.eqb c ",")) o = true)
         origins ->
  allow_origins (Some (join "," origins)) = origins.
Proof. apply allow_origins_of_join. Qed.

(** X3.  The allowed-origins list is a fixed point of the configuration:
    writing it back to [CORS_ORIGINS], joined by commas, yields the same
    list (also when the list in force is the built-in default). *)
Theorem allow_origins_fixed_point (env : Env) :
  allow_origins (Some (join "," (allow_origins env))) = allow_origins env.
Proof.
  destruct (allow_origins_entries_ok env) as [N H].
  apply allow_origins_of_join; [exact N|].
  eapply Forall_impl; [|exact H].
  intros o (E & L & R & C). repeat split; try assumption.
  unfold strip. now rewrite L, R.
Qed.

(** X4.  The route prefix is the trimmed value of [API_PREFIX]: it is the
    value with the whitespace taken off both ends and none left at either
    end, and the only text that is; so it is empty exactly when the
    variable is unset or all whitespace, it has nothing left to trim on
    either side, and whitespace around the value does not change it. *)
Theorem api_prefix_trimmed (env : option string) :
  let value := match env with Some v => v | None => "" end in
  trimmed_from value (API_PREFIX env)
  /\ (forall core, trimmed_from value core -> core = API_PREFIX env)
  /\ is_empty (API_PREFIX env) = all_chars isspace value
  /\ lstrip (API_PREFIX env) = API_PREFIX env
  /\ rstrip (API_PREFIX env) = API_PREFIX env
  /\ forall left_pad right_pad,
       all_chars isspace left_pad = true ->
       all_chars isspace right_pad = true ->
       API_PREFIX (Some (left_pad ++ value ++ right_pad)) = API_PREFIX env.
Proof.
  cbv zeta. unfold API_PREFIX.
  split; [apply strip_trims|]. split; [apply trimmed_is_strip|].
  split; [apply strip_blank|]. split; [apply lstrip_strip|].
  split; [apply rstrip_strip|].
  intros l r Hl Hr. now apply strip_pad.
Qed.

End MoreCorsFacts.

(* ------------------------------------------------------------------------- *)
(** * Further properties of the resolver *)

Section MoreResolverFacts.
Import PyStr Py Gateway.

Variable w : World.

Lemma first_success_skips (pre rest : list string) :
  Forall (fun k => exists e, import_module w k = Raise e) pre ->
  rest <> [] ->
  forall last, exists last',
    first_success w (pre ++ rest) last = first_success w rest last'.
Proof.
  induction 1 as [|k pre [e Hk] _ IH]; intros N last; simpl.
  - now exists last.
  - rewrite Hk. apply IH, N.
Qed.

Lemma tried_skips (pre rest : list string) :
  Forall (fun k => exists e, import_module w k = Raise e) pre ->
  tried w (pre ++ rest) = (pre ++ tried w rest)%list.
Proof.
  induction 1 as [|k pre [e Hk] _ IH]; simpl; [reflexivity|].
  now rewrite Hk, IH.
Qed.

Lemma import_first_success (pre post : list string) (n : string) (m : PyVal)
    (st : State) :
  Forall (fun k => exists e, import_module w k = Raise e) pre ->
  import_module w n = Return m ->
  _import_first w (pre ++ n :: post) st
  = (Return m, st, map EvImport (pre ++ [n])).
Proof.
  intros F L. unfold _import_first. rewrite import_loop_refines.
  destruct (first_success_skips pre (n :: post) F ltac:(discriminate) None)
    as [last' ->].
  rewrite tried_skips by exact F. simpl. now rewrite L.
Qed.

Lemma import_first_all_fail (init : list string) (n : string) (e : PyExc)
    (st : State) :
  Forall (fun k => exists e', import_module w k = Raise e') init ->
  import_module w n = Raise e ->
  _import_first w (init ++ [n]) st
  = (Raise (if exc_truthy e then e
            else Exc "ImportError" "no module names provided"),
     st, map EvImport (init ++ [n])).
Proof.
  intros F L. unfold _import_first. rewrite import_loop_refines.
  destruct (first_success_skips init [n] F ltac:(discriminate) None)
    as [last' ->].
  rewrite tried_skips by exact F. simpl. rewrite L.
  now destruct (exc_truthy e).
Qed.

Lemma first_success_inv (names : list string) :
  forall last m,
    first_success w names last = Return m ->
    exists pre n post,
      names = (pre ++ n :: post)%list /\
      Forall (fun k => exists e, import_module w k = Raise e) pre /\
      import_module w n = Return m.
Proof.
  induction names as [|k names IH]; intros last m; simpl.
  - destruct last as [e|]; [destruct (exc_truthy e)|]; discriminate.
  - destruct (import_module w k) as [m'|e] eqn:Hk.
    + intros [= ->]. exists [], k, names. now repeat split.
    + intros H. destruct (IH _ _ H) as (pre & n & post & -> & F & L).
      exists (k :: pre), n, post. repeat split; [|exact L].
      constructor; [now exists e | exact F].
Qed.

(** X5.  [_import_first] returns the first module of the list that loads:
    when every name before [n] fails to import and [n] imports, the result
    is the module of [n], exactly the names up to and including [n] were
    imported (none after it), and the globals are untouched.  Conversely,
    whenever it returns a module, the list splits in this way. *)
Theorem import_first_returns_first_loadable (names : list string) (st : State) :
  (forall pre n post m,
     names = (pre ++ n :: post)%list ->
     Forall (fun k => exists e, import_module w k = Raise e) pre ->
     import_module w n = Return m ->
     _import_first w names st = (Return m, st, map EvImport (pre ++ [n])))
  /\ (forall m st' tr,
        _import_first w names st = (Return m, st', tr) ->
        exists pre n post,
          names = (pre ++ n :: post)%list /\
          Forall (fun k => exists e, import_module w k = Raise e) pre /\
          import_module w n = Return m /\
          st' = st /\ tr = map EvImport (pre ++ [n])).
Proof.
  split.
  - intros pre n post m -> F L. now apply import_first_success.
  - intros m st' tr H.
    assert (S : first_success w names None = Return m).
    { unfold _import_first in H. rewrite import_loop_refines in H. congruence. }
    destruct (first_success_inv names None m S) as (pre & n & post & E & F & L).
    exists pre, n, post. subst names.
    rewrite (import_first_success pre post n m st F L) in H.
    repeat split; try assumption; congruence.
Qed.

(** X6.  When no name of the list can be imported, [_import_first] has
    tried every name once, in order, and then raises according to the truth
    value of the last failure: that failure itself when its truth value is
    true (as for every exception whose class does not define a truth value
    of its own), and ImportError "no module names provided" when it is
    false.  On an empty list it raises ImportError "no module names
    provided" without importing anything.  The globals are untouched in
    every case. *)
Theorem import_first_raises_last_failure (st : State) :
  _import_first w [] st
  = (Raise (Exc "ImportError" "no module names provided"), st, [])
  /\ (forall init n e,
        Forall (fun k => exists e', import_module w k = Raise e') init ->
        import_module w n = Raise e ->
        exc_truthy e = true ->
        _import_first w (init ++ [n]) st
        = (Raise e, st, map EvImport (init ++ [n])))
  /\ (forall init n e,
        Forall (fun k => exists e', import_module w k = Raise e') init ->
        import_module w n = Raise e ->
        exc_truthy e = false ->
        _import_first w (init ++ [n]) st
        = (Raise (Exc "ImportError" "no module names provided"), st,
           map EvImport (init ++ [n]))).
Proof.
  split; [reflexivity|]. split.
  - intros init n e F L T.
    rewrite (import_first_all_fail init n e st F L). now rewrite T.
  - intros init n e F L T.
    rewrite (import_first_all_fail init n e st F L). now rewrite T.
Qed.

(** X7.  For any list of names, [_import_first] never changes the globals,
    it imports a prefix of the list (each name at most once, in order, and
    nothing but imports), and it raises exactly when no name of the list
    imports. *)
Theorem import_first_frame (names : list string) (st : State) :
  exists r attempted later,
    _import_first w names st = (r, st, map EvImport attempted)
    /\ names = (attempted ++ later)%list
    /\ ((exists e, r = Raise e)
        <-> Forall (fun k => exists e, import_module w k = Raise e) names).
Proof.
  unfold _import_first. rewrite import_loop_refines.
  destruct (tried_prefix w names) as [later E].
  exists (first_success w names None), (tried w names), later.
  split; [reflexivity|]. split; [exact E|].
  clear E later. generalize (@None PyExc).
  induction names as [|k names IH]; intros last; simpl.
  - split; [constructor|]. intros _.
    destruct last as [e|]; [destruct (exc_truthy e)|]; now eexists.
  - destruct (import_module w k) as [m|e] eqn:Hk.
    + split; [intros [e H]; discriminate|].
      intros H. inversion H as [|? ? [e He] _]; subst. congruence.
    + rewrite IH. split.
      * intros H. constructor; [now exists e | exact H].
      * intros H. now inversion H.
Qed.

End MoreResolverFacts.

(* ------------------------------------------------------------------------- *)
(** * Further properties of the scan handler *)

Section MoreScanFacts.
Import PyStr Py Gateway.

(** Splits a goal about [scan w req st] along the paths of the handler once
    the resolution step [L] has returned; each case is rewritten with the
    equation of its path. *)
Ltac split_paths w req st st1 tr1 B L :=
  let F := fresh "F" in let C := fresh "C" in let K := fresh "K" in
  let H1 := fresh "H1" in let H2 := fresh "H2" in
  let meth := fresh "meth" in let G := fresh "G" in let E := fresh "E" in
  destruct (is_not_none (_analyze_fn st1)) eqn:F;
  [ rewrite (scan_function_style w req st st1 tr1 B L F)
  | destruct (is_not_none (_ScannerCls st1)) eqn:C;
    [ destruct (py_call (_ScannerCls st1) [] [("lookback_months", SInt 3)])
        as [?scanner|?e] eqn:K;
      [ destruct (hasattr scanner "analyze_user") eqn:H1;
        [ destruct (scan_class_analyze_user w req st st1 tr1 scanner B L F C K H1)
            as (meth & G & E); rewrite E
        | destruct (hasattr scanner "analyze_player") eqn:H2;
          [ destruct (scan_class_analyze_player w req st st1 tr1 scanner
                        B L F C K H1 H2) as (meth & G & E); rewrite E
          | rewrite (scan_class_lacks_methods w req st st1 tr1 scanner
                       B L F C K H1 H2) ] ]
      | rewrite (scan_class_constructor_fails w req st st1 tr1 _ B L F C K) ]
    | rewrite (scan_no_entrypoints w req st st1 tr1 B L F C) ] ].

Lemma load_trace (w : World) (st : State) :
  exists rl st1 attempted later,
    _load_scanner_once w st = (rl, st1, map EvImport attempted)
    /\ candidates = (attempted ++ later)%list
    /\ (_loaded st = true -> attempted = [])
    /\ (st1 = st
        \/ (_loaded st = false /\ _loaded st1 = true)
        \/ (_loaded st = false /\ _loaded st1 = false
            /\ _analyze_fn st1 = _analyze_fn st)).
Proof.
  destruct (_loaded st) eqn:L.
  - exists (Return tt), st, [], candidates.
    rewrite load_when_loaded by exact L. repeat split. now left.
  - rewrite load_when_not_loaded by exact L.
    destruct (tried_prefix w candidates) as [later E].
    destruct (first_success w candidates None) as [m|e].
    + destruct (py_or _ _) as [fn|e].
      * eexists _, _, _, later. split; [reflexivity|]. split; [exact E|].
        split; [discriminate|]. right. left. now split.
      * eexists _, _, _, later. split; [reflexivity|]. split; [exact E|].
        split; [discriminate|]. right. right. now repeat split.
    + eexists _, _, _, later. split; [reflexivity|]. split; [exact E|].
      split; [discriminate|]. now left.
Qed.

(** A request leaves the globals alone, or completes resolution, or (when
    the inspection of a loaded module fails) leaves resolution not
    completed and the function handle as it was. *)
Lemma scan_state_step (w : World) (req : ScanRequest) (st : State) :
  snd (fst (scan w req st)) = st
  \/ (_loaded st = false /\ _loaded (snd (fst (scan w req st))) = true)
  \/ (_loaded st = false /\ _loaded (snd (fst (scan w req st))) = false
      /\ _analyze_fn (snd (fst (scan w req st))) = _analyze_fn st).
Proof.
  destruct (is_empty (strip (username req))) eqn:B.
  - rewrite scan_blank by exact B. now left.
  - destruct (load_trace w st) as (rl & st1 & att & later & L & _ & _ & S).
    destruct (scan_after_load w req st _ _ _ B L) as (r & tr2 & E & _).
    rewrite E. exact S.
Qed.

Lemma serve_states_loaded (reqs : list (World * ScanRequest)) (st : State) :
  _loaded st = true ->
  map (fun out => snd (fst out)) (serve reqs st) = repeat st (List.length reqs).
Proof.
  intros L. induction reqs as [|[w req] reqs IH]; simpl; [reflexivity|].
  destruct (scan_when_loaded w req st L) as [S _].
  destruct (scan w req st) as [[r st'] tr]. simpl in *. subst st'.
  now rewrite IH.
Qed.

Lemma serve_states_unloaded (reqs : list (World * ScanRequest)) (st : State) :
  _loaded st = false ->
  exists pending st1,
    List.length pending <= List.length reqs
    /\ map (fun out => snd (fst out)) (serve reqs st)
       = (pending ++ repeat st1 (List.length reqs - List.length pending))%list
    /\ Forall (fun s => _loaded s = false /\ _analyze_fn s = _analyze_fn st)
              pending
    /\ (List.length pending < List.length reqs -> _loaded st1 = true).
Proof.
  intros L. revert st L. induction reqs as [|[w req] reqs IH]; intros st L; simpl.
  - exists [], st. split; [simpl; lia|]. split; [reflexivity|].
    split; [constructor|]. simpl. lia.
  - pose proof (scan_state_step w req st) as S.
    destruct (scan w req st) as [[r st'] tr]. simpl in S.
    assert (C : _loaded st' = true
                \/ (_loaded st' = false /\ _analyze_fn st' = _analyze_fn st)).
    { destruct S as [->|[[_ L']|(_ & L' & A)]]; [right | left | right]; easy. }
    destruct C as [L'|[L' A]].
    + exists [], st'. split; [simpl; lia|]. split; [|split; [constructor|now intros _]].
      simpl. now rewrite serve_states_loaded.
    + destruct (IH st' L') as (pending & st1 & Hn & E & F & H1).
      exists (st' :: pending), st1. split; [simpl; lia|].
      split; [simpl; now rewrite E|]. split.
      * constructor; [now split|]. eapply Forall_impl; [|exact F].
        intros s [Ls As]. split; [exact Ls | congruence].
      * simpl. intros H. apply H1. lia.
Qed.

(** A request served while resolution has not completed pays no attention
    to the handles the globals hold: its response and its outside calls are
    those of the same request at process start. *)
Lemma scan_unloaded_ignores_handles (w : World) (req : ScanRequest)
    (st : State) :
  _loaded st = false ->
  fst (fst (scan w req st)) = fst (fst (scan w req initial))
  /\ snd (scan w req st) = snd (scan w req initial).
Proof.
  intros L.
  destruct (is_empty (strip (username req))) eqn:B.
  - rewrite !scan_blank by exact B. now split.
  - pose proof (load_when_not_loaded w st L) as E.
    pose proof (load_when_not_loaded w initial eq_refl) as E0.
    destruct (first_success w candidates None) as [m|e].
    + destruct (py_or _ _) as [fn|e].
      * rewrite <- E0 in E.
        destruct (_load_scanner_once w initial) as [[rl st1] tr1] eqn:L0.
        injection E0 as -> _ _.
        destruct (scan_after_load w req initial _ _ _ B L0) as (r0 & t0 & S0 & _).
        clear S0 r0 t0.
        split_paths w req st st1 tr1 B E;
          first [ rewrite (scan_function_style w req initial st1 tr1 B L0)
                    by assumption
                | match goal with
                  | G : py_getattr ?sc "analyze_user" = Some ?m |- _ =>
                      destruct (scan_class_analyze_user w req initial st1 tr1 sc
                                  B L0) as (m0 & G0 & S0); try assumption;
                      rewrite S0; assert (m0 = m) by congruence; subst m0
                  | G : py_getattr ?sc "analyze_player" = Some ?m |- _ =>
                      destruct (scan_class_analyze_player w req initial st1 tr1 sc
                                  B L0) as (m0 & G0 & S0); try assumption;
                      rewrite S0; assert (m0 = m) by congruence; subst m0
                  end
                | erewrite (scan_class_lacks_methods w req initial st1 tr1)
                    by eassumption
                | erewrite (scan_class_constructor_fails w req initial st1 tr1)
                    by eassumption
                | rewrite (scan_no_entrypoints w req initial st1 tr1 B L0)
                    by assumption ];
          now split.
      * rewrite (scan_resolution_failure w req st _ _ _ B E),
                (scan_resolution_failure w req initial _ _ _ B E0).
        now split.
    + rewrite (scan_resolution_failure w req st _ _ _ B E),
              (scan_resolution_failure w req initial _ _ _ B E0).
      now split.
Qed.

(** X8.  Over any sequence of scan requests served from process start,
    resolution completes at most once: after each of some first requests it
    is still not completed and the function handle is still None (only the
    class handle may already hold what a failed inspection of a loaded
    module left there), and after every later request the globals hold one
    and the same completed resolution.  What a request finds in the handles
    while resolution is not completed has no effect on its response or on
    its outside calls. *)
Theorem resolution_completes_at_most_once (reqs : list (World * ScanRequest)) :
  let states := map (fun out => snd (fst out)) (serve reqs initial) in
  (exists pending st1,
     List.length pending <= List.length reqs
     /\ states = (pending ++ repeat st1 (List.length reqs - List.length pending))%list
     /\ Forall (fun s => _loaded s = false /\ _analyze_fn s = VNone) pending
     /\ (List.length pending < List.length reqs -> _loaded st1 = true))
  /\ (forall w req cls fn,
        let st := {| _ScannerCls := cls; _analyze_fn := fn; _loaded := false |} in
        fst (fst (scan w req st)) = fst (fst (scan w req initial))
        /\ snd (scan w req st) = snd (scan w req initial)).
Proof.
  cbv zeta. split.
  - exact (serve_states_unloaded reqs initial eq_refl).
  - intros w req cls fn. now apply scan_unloaded_ignores_handles.
Qed.

(** X9.  A "nothing found" resolution is cached like any other: when the
    module that loads defines none of SusScanner, analyze_user and
    analyze_player, the request that loaded it ends in the 500
    "no entrypoints found" error with resolution marked as completed, and
    every later request with a non-blank username gets the same error
    without any module load, whatever has become importable meanwhile. *)
Theorem no_entrypoints_outcome_is_cached (w : World) (req : ScanRequest)
    (st : State) (m : PyVal) (tr : list Event) :
  _loaded st = false ->
  _import_first w candidates st = (Return m, st, tr) ->
  py_getattr m "SusScanner" = None ->
  py_getattr m "analyze_user" = None ->
  py_getattr m "analyze_player" = None ->
  is_empty (strip (username req)) = false ->
  let found_nothing :=
    {| _ScannerCls := VNone; _analyze_fn := VNone; _loaded := true |} in
  scan w req st
  = (Raise (HTTPException 500 no_entrypoints_detail), found_nothing, tr)
  /\ forall w' req',
       is_empty (strip (username req')) = false ->
       scan w' req' found_nothing
       = (Raise (HTTPException 500 no_entrypoints_detail), found_nothing, []).
Proof.
  intros L I A1 A2 A3 B found_nothing. split.
  - assert (Ld : _load_scanner_once w st = (Return tt, found_nothing, tr)).
    { rewrite load_when_not_loaded by exact L.
      unfold _import_first in I. rewrite import_loop_refines in I.
      assert (F : first_success w candidates None = Return m) by congruence.
      assert (T : map EvImport (tried w candidates) = tr) by congruence.
      rewrite F, T. unfold getattr_default, py_or. now rewrite A1, A2, A3. }
    exact (scan_no_entrypoints w req st found_nothing tr B Ld eq_refl eq_refl).
  - intros w' req' B'.
    exact (scan_no_entrypoints w' req' found_nothing found_nothing [] B'
             (load_when_loaded w' found_nothing eq_refl) eq_refl eq_refl).
Qed.

(** X10.  The outcomes of the scan handler, each tied to the call that
    produced it.  With a blank username it raises the 400 error.
    Otherwise: when the resolution step raises, a 500 "failed to import
    scanner module: " with the text of what it raised; when a function
    handle is recorded, the normalization of what the call of that handle
    with the trimmed username returned, or a 500 "analyze function
    failed: " with the text of what that call raised; when only a class
    handle is recorded, a 500 "scanner failed: " with the text of what the
    construction raised, or the normalization of what the method called
    (analyze_user, or analyze_player when there is no analyze_user)
    returned, or a 500 "scanner failed: " with the text of what that method
    raised or of the missing-methods error; when neither is recorded, the
    500 no-entrypoints error.  So a response that is not an error of the
    handler is always the normalization of a value that the entrypoint
    called in this very request returned. *)
Theorem scan_outcomes (w : World) (req : ScanRequest) (st : State) :
  let u := strip (username req) in
  let kwargs := [("lookback_months", SInt 3)] in
  let r := fst (fst (scan w req st)) in
  let st1 := snd (fst (scan w req st)) in
  let wrapped prefix e := Raise (HTTPException 500 (prefix ++ exc_str w e)) in
  if is_empty u
  then r = Raise (HTTPException 400 "username is required")
  else
    (exists e,
       fst (fst (_load_scanner_once w st)) = Raise e /\
       r = wrapped "failed to import scanner module: " e)
    \/ (fst (fst (_load_scanner_once w st)) = Return tt /\
        st1 = snd (fst (_load_scanner_once w st)) /\
        ((is_not_none (_analyze_fn st1) = true /\
          ((exists metrics,
              py_call (_analyze_fn st1) [SStr u] [] = Return metrics /\
              r = _to_json metrics)
           \/ (exists e,
                 py_call (_analyze_fn st1) [SStr u] [] = Raise e /\
                 r = wrapped "analyze function failed: " e)))
         \/ (is_not_none (_analyze_fn st1) = false /\
             is_not_none (_ScannerCls st1) = false /\
             r = Raise (HTTPException 500 no_entrypoints_detail))
         \/ (is_not_none (_analyze_fn st1) = false /\
             is_not_none (_ScannerCls st1) = true /\
             ((exists e,
                 py_call (_ScannerCls st1) [] kwargs = Raise e /\
                 r = wrapped "scanner failed: " e)
              \/ (exists scanner,
                    py_call (_ScannerCls st1) [] kwargs = Return scanner /\
                    ((exists name meth,
                        (name = "analyze_user"
                         \/ (name = "analyze_player"
                             /\ hasattr scanner "analyze_user" = false)) /\
                        py_getattr scanner name = Some meth /\
                        ((exists metrics,
                            py_call meth [SStr u] [] = Return metrics /\
                            r = _to_json metrics)
                         \/ (exists e,
                               py_call meth [SStr u] [] = Raise e /\
                               r = wrapped "scanner failed: " e)))
                     \/ (hasattr scanner "analyze_user" = false /\
                         hasattr scanner "analyze_player" = false /\
                         r = wrapped "scanner failed: "
                               (HTTPException 500
                                  "SusScanner lacks analyze_user/analyze_player")))))))).
Proof.
  cbv zeta. destruct (is_empty (strip (username req))) eqn:B.
  - now rewrite scan_blank by exact B.
  - destruct (_load_scanner_once w st) as [[rl st1] tr1] eqn:L.
    destruct rl as [[]|e].
    + right.
      split_paths w req st st1 tr1 B L; cbn [fst snd];
        (split; [reflexivity|]); (split; [reflexivity|]).
      * left. split; [assumption|].
        destruct (py_call (_analyze_fn st1) _ _) as [metrics|e];
          [left; now exists metrics | right; now exists e].
      * right. right. split; [assumption|]. split; [assumption|].
        right. exists scanner. split; [assumption|]. left.
        exists "analyze_user", meth. split; [now left|]. split; [assumption|].
        destruct (py_call meth _ _) as [metrics|e];
          [left; now exists metrics | right; now exists e].
      * right. right. split; [assumption|]. split; [assumption|].
        right. exists scanner. split; [assumption|]. left.
        exists "analyze_player", meth. split; [now right|]. split; [assumption|].
        destruct (py_call meth _ _) as [metrics|e];
          [left; now exists metrics | right; now exists e].
      * right. right. split; [assumption|]. split; [assumption|].
        right. exists scanner. split; [assumption|]. right. now repeat split.
      * right. right. split; [assumption|]. split; [assumption|].
        left. eexists. split; [eassumption | reflexivity].
      * right. left. now repeat split.
    + left. rewrite (scan_resolution_failure w req st e st1 tr1 B L).
      exists e. now split.
Qed.

(** The handler reads the username only through its trimmed form. *)
Lemma scan_same_trimmed_username (w : World) (r1 r2 : ScanRequest) (st : State) :
  strip (username r1) = strip (username r2) -> scan w r1 st = scan w r2 st.
Proof. intros E. unfold scan. now rewrite !or_str_empty, E. Qed.

(** X11.  Whitespace around the username does not matter: a request whose
    username is padded with whitespace on either side gets the same
    response, leaves the same globals and makes the same outside calls as
    the request with the bare username. *)
Theorem scan_ignores_padding (w : World) (st : State)
    (left_pad s right_pad : string) :
  all_chars isspace left_pad = true ->
  all_chars isspace right_pad = true ->
  scan w (mkScanRequest (left_pad ++ s ++ right_pad)) st
  = scan w (mkScanRequest s) st.
Proof.
  intros Hl Hr. apply scan_same_trimmed_username.
  cbn [username]. now apply strip_pad.
Qed.

(** X12.  The outside calls of one scan request: first the imports of a
    prefix of the candidate list (none once resolution has completed), then
    at most one use of the scanner, which is one of: the function called
    with the trimmed username; the class constructed with lookback_months=3
    and nothing else; or that construction followed by exactly one of
    analyze_user and analyze_player called with the trimmed username.  With
    a blank username there is no outside call at all, so the scanner is
    never handed an empty or untrimmed username. *)
Theorem scan_trace_shape (w : World) (req : ScanRequest) (st : State) :
  let u := strip (username req) in
  let construct := EvConstruct [("lookback_months", SInt 3)] in
  exists attempted later calls,
    snd (scan w req st) = (map EvImport attempted ++ calls)%list
    /\ candidates = (attempted ++ later)%list
    /\ In calls [ []; [EvAnalyzeFn u]; [construct];
                  [construct; EvMethod "analyze_user" u];
                  [construct; EvMethod "analyze_player" u] ]
    /\ (_loaded st = true -> attempted = [])
    /\ (is_empty u = true -> attempted = [] /\ calls = []).
Proof.
  cbv zeta. destruct (is_empty (strip (username req))) eqn:B.
  - exists [], candidates, []. rewrite scan_blank by exact B.
    repeat split; simpl; auto.
  - destruct (load_trace w st) as (rl & st1 & att & later & L & P & N & _).
    exists att, later.
    assert (S : exists calls,
               snd (scan w req st) = (map EvImport att ++ calls)%list
               /\ In calls
                    [ []; [EvAnalyzeFn (strip (username req))];
                      [EvConstruct [("lookback_months", SInt 3)]];
                      [EvConstruct [("lookback_months", SInt 3)];
                       EvMethod "analyze_user" (strip (username req))];
                      [EvConstruct [("lookback_months", SInt 3)];
                       EvMethod "analyze_player" (strip (username req))] ]).
    { destruct rl as [[]|e].
      - split_paths w req st st1 (map EvImport att) B L;
          first [ eexists; split; [reflexivity|]; simpl; now auto 6
                | exists []; rewrite app_nil_r; split; [reflexivity|];
                  simpl; now auto ].
      - rewrite (scan_resolution_failure w req st e st1 _ B L).
        exists []. rewrite app_nil_r. simpl; auto. }
    destruct S as (calls & E & I). exists calls.
    repeat split; try assumption; discriminate.
Qed.

(** X13.  When only a class-style entrypoint was resolved and the instance
    offers analyze_player but not analyze_user, analyze_player is called
    with the trimmed username and its outcome decides the response: its
    result normalized, or a 500 "scanner failed: ..." when it raises. *)
Theorem class_style_falls_back_to_analyze_player (w : World)
    (req : ScanRequest) (st st1 : State) (tr1 : list Event) (scanner : PyVal) :
  is_empty (strip (username req)) = false ->
  _load_scanner_once w st = (Return tt, st1, tr1) ->
  is_not_none (_analyze_fn st1) = false ->
  is_not_none (_ScannerCls st1) = true ->
  py_call (_ScannerCls st1) [] [("lookback_months", SInt 3)] = Return scanner ->
  hasattr scanner "analyze_user" = false ->
  hasattr scanner "analyze_player" = true ->
  exists meth,
    py_getattr scanner "analyze_player" = Some meth /\
    scan w req st
    = (match py_call meth [SStr (strip (username req))] [] with
       | Return metrics => _to_json metrics
       | Raise e => Raise (HTTPException 500 ("scanner failed: " ++ exc_str w e))
       end,
       st1,
       (tr1 ++ [EvConstruct [("lookback_months", SInt 3)];
                EvMethod "analyze_player" (strip (username req))])%list).
Proof. apply scan_class_analyze_player. Qed.

(** X14.  When only a class-style entrypoint was resolved and constructing
    it raises, the response is a 500 error "scanner failed: " followed by
    the text of the exception, no method is called, and the completed
    resolution is kept, so the next request constructs again. *)
Theorem class_constructor_failure_is_wrapped (w : World) (req : ScanRequest)
    (st st1 : State) (tr1 : list Event) (e : PyExc) :
  is_empty (strip (username req)) = false ->
  _load_scanner_once w st = (Return tt, st1, tr1) ->
  is_not_none (_analyze_fn st1) = false ->
  is_not_none (_ScannerCls st1) = true ->
  py_call (_ScannerCls st1) [] [("lookback_months", SInt 3)] = Raise e ->
  scan w req st
  = (Raise (HTTPException 500 ("scanner failed: " ++ exc_str w e)),
     st1, (tr1 ++ [EvConstruct [("lookback_months", SInt 3)]])%list)
  /\ (_loaded st1 = true ->
      forall w' req',
        is_empty (strip (username req')) = false ->
        scan w' req' st1
        = (Raise (HTTPException 500 ("scanner failed: " ++ exc_str w' e)),
           st1, [EvConstruct [("lookback_months", SInt 3)]])).
Proof.
  intros B L F C K. split.
  - now apply scan_class_constructor_fails.
  - intros L1 w' req' B'.
    apply (scan_class_constructor_fails w' req' st1 st1 []); try assumption.
    now apply load_when_loaded.
Qed.

Lemma exc_str_ext (w1 w2 : World) (e : PyExc) :
  (forall code detail,
     http_exception_str w1 code detail = http_exception_str w2 code detail) ->
  exc_str w1 e = exc_str w2 e.
Proof. intros H. destruct e; simpl; [reflexivity | reflexivity | apply H]. Qed.

(** X15.  Once resolution has completed, the import system no longer
    matters: two worlds that differ in what can be imported (and agree on
    the text of the framework's exception) give the same response, globals
    and outside calls for every request. *)
Theorem resolved_scan_ignores_imports (w1 w2 : World) (req : ScanRequest)
    (st : State) :
  _loaded st = true ->
  (forall code detail,
     http_exception_str w1 code detail = http_exception_str w2 code detail) ->
  scan w1 req st = scan w2 req st.
Proof.
  intros L X.
  destruct (is_empty (strip (username req))) eqn:B.
  - now rewrite !scan_blank by exact B.
  - pose proof (load_when_loaded w1 st L) as L1.
    pose proof (load_when_loaded w2 st L) as L2.
    destruct (is_not_none (_analyze_fn st)) eqn:F.
    { rewrite (scan_function_style w1 req st st [] B L1 F),
              (scan_function_style w2 req st st [] B L2 F).
      destruct (py_call (_analyze_fn st) _ _); [reflexivity|].
      now rewrite (exc_str_ext w1 w2 e X). }
    destruct (is_not_none (_ScannerCls st)) eqn:C.
    2:{ now rewrite (scan_no_entrypoints w1 req st st [] B L1 F C),
                    (scan_no_entrypoints w2 req st st [] B L2 F C). }
    destruct (py_call (_ScannerCls st) [] [("lookback_months", SInt 3)])
      as [scanner|e] eqn:K.
    2:{ rewrite (scan_class_constructor_fails w1 req st st [] e B L1 F C K),
                (scan_class_constructor_fails w2 req st st [] e B L2 F C K).
        now rewrite (exc_str_ext w1 w2 e X). }
    destruct (hasattr scanner "analyze_user") eqn:H1.
    { destruct (scan_class_analyze_user w1 req st st [] scanner B L1 F C K H1)
        as (m1 & G1 & E1).
      destruct (scan_class_analyze_user w2 req st st [] scanner B L2 F C K H1)
        as (m2 & G2 & E2).
      rewrite E1, E2. assert (m1 = m2) by congruence. subst m2.
      destruct (py_call m1 _ _); [reflexivity|].
      now rewrite (exc_str_ext w1 w2 e X). }
    destruct (hasattr scanner "analyze_player") eqn:H2.
    { destruct (scan_class_analyze_player w1 req st st [] scanner B L1 F C K H1 H2)
        as (m1 & G1 & E1).
      destruct (scan_class_analyze_player w2 req st st [] scanner B L2 F C K H1 H2)
        as (m2 & G2 & E2).
      rewrite E1, E2. assert (m1 = m2) by congruence. subst m2.
      destruct (py_call m1 _ _); [reflexivity|].
      now rewrite (exc_str_ext w1 w2 e X). }
    rewrite (scan_class_lacks_methods w1 req st st [] scanner B L1 F C K H1 H2),
            (scan_class_lacks_methods w2 req st st [] scanner B L2 F C K H1 H2).
    now rewrite (exc_str_ext w1 w2 _ X).
Qed.

(** X16.  A recorded function handle that is not None is used even when it
    cannot be called (a string, a number, a dict, an object without a call):
    the request then ends in the 500 error "analyze function failed: 'T'
    object is not callable", with T the type name of the handle, and there
    is no fallback to the class-style entrypoint. *)
Theorem uncallable_function_handle_fails (w : World) (req : ScanRequest)
    (st st1 : State) (tr1 : list Event) :
  is_empty (strip (username req)) = false ->
  _load_scanner_once w st = (Return tt, st1, tr1) ->
  is_not_none (_analyze_fn st1) = true ->
  match _analyze_fn st1 with VObj o => ob_call o = None | _ => True end ->
  scan w req st
  = (Raise (HTTPException 500
              ("analyze function failed: '" ++ type_name (_analyze_fn st1)
               ++ "' object is not callable")),
     st1, (tr1 ++ [EvAnalyzeFn (strip (username req))])%list)
  /\ no_class_use (tr1 ++ [EvAnalyzeFn (strip (username req))]) = true.
Proof.
  intros B L F U. split.
  - rewrite (scan_function_style w req st st1 tr1 B L F).
    destruct (_analyze_fn st1) as [| | | | |o]; simpl in *; try reflexivity.
    now rewrite U.
  - rewrite no_class_use_app, (load_only_imports w st _ _ _ L). reflexivity.
Qed.

End MoreScanFacts.

(** ** The further properties at concrete inputs *)

Section MoreConcreteRuns.
Import PyStr Py Gateway Cors Config Examples.

Lemma allow_origins_round_trip_witness :
  ["https://a.example"; "http://localhost:5173"] <> [] /\
  Forall (fun o => is_empty o = false /\ strip o = o
                   /\ all_chars (fun c => negb (Ascii.eqb c ",")) o = true)
         ["https://a.example"; "http://localhost:5173"] /\
  allow_origins (Some "https://a.example,http://localhost:5173")
  = ["https://a.example"; "http://localhost:5173"].
Proof.
  split; [discriminate|].
  assert (F : Forall (fun o => is_empty o = false /\ strip o = o
                        /\ all_chars (fun c => negb (Ascii.eqb c ",")) o = true)
                     ["https://a.example"; "http://localhost:5173"])
    by (repeat constructor).
  split; [exact F|].
  exact (allow_origins_round_trip ["https://a.example"; "http://localhost:5173"]
           ltac:(discriminate) F).
Defined.

Lemma api_prefix_trimmed_witness :
  all_chars isspace " " = true /\
  API_PREFIX (Some (" " ++ "/api" ++ " ")) = API_PREFIX (Some "/api") /\
  trimmed_from " /api " "/api" /\
  "/api" = API_PREFIX (Some " /api ").
Proof.
  split; [reflexivity|]. split.
  - exact (proj2 (proj2 (proj2 (proj2 (proj2 (api_prefix_trimmed (Some "/api"))))))
                 " " " " eq_refl eq_refl).
  - assert (T : trimmed_from " /api " "/api").
    { exists " ", " ". now repeat split. }
    split; [exact T|].
    exact (proj1 (proj2 (api_prefix_trimmed (Some " /api "))) "/api" T).
Defined.

Lemma import_first_returns_first_loadable_witness :
  candidates = (["scanner"] ++ "services.scanner" :: ["api.scanner"])%list /\
  Forall (fun k => exists e,
            import_module (services_scanner both_styles) k = Raise e)
         ["scanner"] /\
  import_module (services_scanner both_styles) "services.scanner"
  = Return both_styles /\
  _import_first (services_scanner both_styles) candidates initial
  = (Return both_styles, initial,
     [EvImport "scanner"; EvImport "services.scanner"]).
Proof.
  split; [reflexivity|].
  assert (F : Forall (fun k => exists e,
                        import_module (services_scanner both_styles) k = Raise e)
                     ["scanner"]).
  { constructor; [|constructor]. now eexists. }
  split; [exact F|]. split; [reflexivity|].
  exact (proj1 (import_first_returns_first_loadable
                  (services_scanner both_styles) candidates initial)
               ["scanner"] "services.scanner" ["api.scanner"] both_styles
               eq_refl F eq_refl).
Defined.

Lemma import_first_raises_last_failure_witness :
  (Forall (fun k => exists e, import_module no_scanner k = Raise e)
          ["scanner"; "services.scanner"] /\
   import_module no_scanner "api.scanner" = Raise (not_found "api.scanner") /\
   exc_truthy (not_found "api.scanner") = true /\
   _import_first no_scanner candidates initial
   = (Raise (not_found "api.scanner"), initial,
      [EvImport "scanner"; EvImport "services.scanner"; EvImport "api.scanner"])) /\
  (Forall (fun k => exists e, import_module falsy_last_failure k = Raise e)
          ["scanner"; "services.scanner"] /\
   import_module falsy_last_failure "api.scanner"
   = Raise (FalsyExc "EmptyIndexError" "scanner index is empty") /\
   exc_truthy (FalsyExc "EmptyIndexError" "scanner index is empty") = false /\
   _import_first falsy_last_failure candidates initial
   = (Raise (Exc "ImportError" "no module names provided"), initial,
      [EvImport "scanner"; EvImport "services.scanner"; EvImport "api.scanner"])).
Proof.
  assert (F : Forall (fun k => exists e, import_module no_scanner k = Raise e)
                     ["scanner"; "services.scanner"]).
  { repeat constructor; now eexists. }
  assert (G : Forall (fun k => exists e,
                        import_module falsy_last_failure k = Raise e)
                     ["scanner"; "services.scanner"]).
  { repeat constructor; now eexists. }
  split.
  - split; [exact F|]. split; [reflexivity|]. split; [reflexivity|].
    exact (proj1 (proj2 (import_first_raises_last_failure no_scanner initial))
                 ["scanner"; "services.scanner"] "api.scanner" _ F eq_refl eq_refl).
  - split; [exact G|]. split; [reflexivity|]. split; [reflexivity|].
    exact (proj2 (proj2 (import_first_raises_last_failure falsy_last_failure initial))
                 ["scanner"; "services.scanner"] "api.scanner" _ G eq_refl eq_refl).
Defined.

Lemma no_entrypoints_outcome_is_cached_witness :
  _loaded initial = false /\
  _import_first (services_scanner empty_module) candidates initial
  = (Return empty_module, initial,
     [EvImport "scanner"; EvImport "services.scanner"]) /\
  py_getattr empty_module "SusScanner" = None /\
  py_getattr empty_module "analyze_user" = None /\
  py_getattr empty_module "analyze_player" = None /\
  is_empty (strip (username magnus)) = false /\
  scan (services_scanner empty_module) magnus initial
  = (Raise (HTTPException 500 no_entrypoints_detail),
     {| _ScannerCls := VNone; _analyze_fn := VNone; _loaded := true |},
     [EvImport "scanner"; EvImport "services.scanner"]).
Proof.
  do 6 (split; [reflexivity|]).
  exact (proj1 (no_entrypoints_outcome_is_cached
                  (services_scanner empty_module) magnus initial empty_module
                  [EvImport "scanner"; EvImport "services.scanner"]
                  eq_refl eq_refl eq_refl eq_refl eq_refl eq_refl)).
Defined.

Lemma scan_ignores_padding_witness :
  all_chars isspace " " = true /\
  scan (services_scanner both_styles) (mkScanRequest (" " ++ "magnus" ++ " "))
       initial
  = scan (services_scanner both_styles) (mkScanRequest "magnus") initial.
Proof.
  split; [reflexivity|].
  exact (scan_ignores_padding (services_scanner both_styles) initial
           " " "magnus" " " eq_refl eq_refl).
Defined.

Lemma class_style_falls_back_to_analyze_player_witness :
  is_empty (strip (username magnus)) = false /\
  _load_scanner_once (services_scanner class_with_analyze_player) initial
  = (Return tt, after_load class_with_analyze_player,
     [EvImport "scanner"; EvImport "services.scanner"]) /\
  is_not_none (_analyze_fn (after_load class_with_analyze_player)) = false /\
  is_not_none (_ScannerCls (after_load class_with_analyze_player)) = true /\
  py_call (_ScannerCls (after_load class_with_analyze_player)) []
          [("lookback_months", SInt 3)]
  = Return (instance [("analyze_player", fn "SusScanner.analyze_player")]) /\
  hasattr (instance [("analyze_player", fn "SusScanner.analyze_player")])
          "analyze_user" = false /\
  hasattr (instance [("analyze_player", fn "SusScanner.analyze_player")])
          "analyze_player" = true /\
  exists meth,
    py_getattr (instance [("analyze_player", fn "SusScanner.analyze_player")])
               "analyze_player" = Some meth /\
    scan (services_scanner class_with_analyze_player) magnus initial
    = (match py_call meth [SStr "magnus"] [] with
       | Return metrics => _to_json metrics
       | Raise e =>
           Raise (HTTPException 500
                    ("scanner failed: " ++
                     exc_str (services_scanner class_with_analyze_player) e))
       end,
       after_load class_with_analyze_player,
       [EvImport "scanner"; EvImport "services.scanner";
        EvConstruct [("lookback_months", SInt 3)];
        EvMethod "analyze_player" "magnus"]).
Proof.
  do 7 (split; [reflexivity|]).
  exact (class_style_falls_back_to_analyze_player
           (services_scanner class_with_analyze_player) magnus initial
           (after_load class_with_analyze_player)
           [EvImport "scanner"; EvImport "services.scanner"]
           (instance [("analyze_player", fn "SusScanner.analyze_player")])
           eq_refl eq_refl eq_refl eq_refl eq_refl eq_refl eq_refl).
Defined.

Lemma class_constructor_failure_is_wrapped_witness :
  is_empty (strip (username magnus)) = false /\
  _load_scanner_once (services_scanner class_that_fails) initial
  = (Return tt, after_load class_that_fails,
     [EvImport "scanner"; EvImport "services.scanner"]) /\
  is_not_none (_analyze_fn (after_load class_that_fails)) = false /\
  is_not_none (_ScannerCls (after_load class_that_fails)) = true /\
  py_call (_ScannerCls (after_load class_that_fails)) []
          [("lookback_months", SInt 3)]
  = Raise (Exc "RuntimeError" "no database") /\
  scan (services_scanner class_that_fails) magnus initial
  = (Raise (HTTPException 500 "scanner failed: no database"),
     after_load class_that_fails,
     [EvImport "scanner"; EvImport "services.scanner";
      EvConstruct [("lookback_months", SInt 3)]]).
Proof.
  do 5 (split; [reflexivity|]).
  exact (proj1 (class_constructor_failure_is_wrapped
                  (services_scanner class_that_fails) magnus initial
                  (after_load class_that_fails)
                  [EvImport "scanner"; EvImport "services.scanner"]
                  (Exc "RuntimeError" "no database")
                  eq_refl eq_refl eq_refl eq_refl eq_refl)).
Defined.

Lemma resolved_scan_ignores_imports_witness :
  _loaded resolved = true /\
  scan no_scanner magnus resolved
  = scan (services_scanner both_styles) magnus resolved.
Proof.
  split; [reflexivity|].
  exact (resolved_scan_ignores_imports no_scanner (services_scanner both_styles)
           magnus resolved eq_refl (fun _ _ => eq_refl)).
Defined.

Lemma uncallable_function_handle_fails_witness :
  is_empty (strip (username magnus)) = false /\
  _load_scanner_once (services_scanner uncallable_function) initial
  = (Return tt, after_load uncallable_function,
     [EvImport "scanner"; EvImport "services.scanner"]) /\
  is_not_none (_analyze_fn (after_load uncallable_function)) = true /\
  _analyze_fn (after_load uncallable_function) = VStr "todo" /\
  scan (services_scanner uncallable_function) magnus initial
  = (Raise (HTTPException 500
              "analyze function failed: 'str' object is not callable"),
     after_load uncallable_function,
     [EvImport "scanner"; EvImport "services.scanner"; EvAnalyzeFn "magnus"]).
Proof.
  do 4 (split; [reflexivity|]).
  exact (proj1 (uncallable_function_handle_fails
                  (services_scanner uncallable_function) magnus initial
                  (after_load uncallable_function)
                  [EvImport "scanner"; EvImport "services.scanner"]
                  eq_refl eq_refl eq_refl I)).
Defined.

End MoreConcreteRuns.
